(** * Document converter: Markdown report to HTML and PDF

    A shallow embedding of the two scripts of [dog_walker_app]:

    - [generate_pdf_report.py]: [convert_markdown_to_pdf],
      [create_simplified_pdf] and the script body;
    - [simple_pdf_generator.py]: [convert_markdown_to_html],
      [create_simple_html] and the script body.

    The scripts are sequential I/O: test that the report exists, read it,
    hand it to the Markdown library, splice the result into a fixed page and
    write the page (or hand it to the PDF renderer).  They are embedded in a
    state-and-exception monad over a [world] made of the files of the working
    directory, the lines printed so far, the file objects currently open and a
    log of the file operations performed.

    What the model takes for granted: the imports at the top of each script
    have succeeded; the working directory holds regular files only, all of
    them readable and writable; the host is POSIX; standard output accepts
    every line.  The Markdown library and the PDF renderer are parameters.

    The scripts are embedded twice.  In the first embedding the Markdown
    transform returns, standard output takes every line and the disk takes
    every write.  The second, [Fallible], is the same code with these three
    allowed to raise; in a kind environment it is the first. *)

From Stdlib Require Import Ascii String List NArith Bool Lia.
From stdpp Require Import gmap strings list fin_maps.

Open Scope string_scope.

(** ** Python values *)

(** A Python [str] is represented by its UTF-8 encoding and a [bytes] object
    by itself, both as a [string] of 8-bit characters. *)
Abbreviation text := string (only parsing).
Abbreviation bytes := string (only parsing).

(** The quotation mark, spliced into the literals that contain one. *)
Definition dq : string := String "034"%char EmptyString.

Definition LF : ascii := "010"%char.
Definition CR : ascii := "013"%char.

(** *** The [utf-8] codec, strict error handling

    [utf8_scan] walks the bytes with the decoder's state: either at a
    character boundary, or inside a multi-byte sequence whose next byte must
    lie in [[lo, hi]] and is followed by [more] continuation bytes.  Overlong
    forms, surrogates and code points above U+10FFFF are rejected, as the
    codec does. *)
Inductive utf8_state : Type :=
| AtBoundary
| Expect (lo hi : N) (more : nat).

Definition in_range (lo hi b : N) : bool := (lo <=? b)%N && (b <=? hi)%N.

Definition utf8_lead (b : N) : option utf8_state :=
  if (b <=? 0x7F)%N then Some AtBoundary
  else if in_range 0xC2 0xDF b then Some (Expect 0x80 0xBF 0)
  else if (b =? 0xE0)%N then Some (Expect 0xA0 0xBF 1)
  else if (b =? 0xED)%N then Some (Expect 0x80 0x9F 1)
  else if in_range 0xE1 0xEF b then Some (Expect 0x80 0xBF 1)
  else if (b =? 0xF0)%N then Some (Expect 0x90 0xBF 2)
  else if (b =? 0xF4)%N then Some (Expect 0x80 0x8F 2)
  else if in_range 0xF1 0xF3 b then Some (Expect 0x80 0xBF 2)
  else None.

Fixpoint utf8_scan (st : utf8_state) (s : bytes) : bool :=
  match s with
  | EmptyString =>
      match st with AtBoundary => true | Expect _ _ _ => false end
  | String c rest =>
      let b := N_of_ascii c in
      match st with
      | AtBoundary =>
          match utf8_lead b with
          | Some st' => utf8_scan st' rest
          | None => false
          end
      | Expect lo hi more =>
          if in_range lo hi b then
            match more with
            | O => utf8_scan AtBoundary rest
            | S k => utf8_scan (Expect 0x80 0xBF k) rest
            end
          else false
      end
  end.

Definition utf8_valid (b : bytes) : bool := utf8_scan AtBoundary b.

(** *** Universal newlines

    A file opened for reading in text mode with the default [newline=None]
    hands out ["\r\n"] and a lone ["\r"] as ["\n"]. *)
Fixpoint universal_newlines (s : text) : text :=
  match s with
  | EmptyString => EmptyString
  | String c rest =>
      if Ascii.eqb c CR then
        match rest with
        | String c' rest' =>
            if Ascii.eqb c' LF then String LF (universal_newlines rest')
            else String LF (universal_newlines rest)
        | EmptyString => String LF EmptyString
        end
      else String c (universal_newlines rest)
  end.

(** What [f.read()] returns for a file holding [b], opened with
    [open(path, 'r', encoding='utf-8')]; [None] stands for the
    [UnicodeDecodeError] of an ill-formed file. *)
Definition decode_text (b : bytes) : option text :=
  if utf8_valid b then Some (universal_newlines b) else None.

(** What [f.write(s)] stores for a file opened with
    [open(path, 'w', encoding='utf-8')].  The host is POSIX: [os.linesep] is
    ["\n"], so the encoded string is stored as it is. *)
Definition encode_text (s : text) : bytes := s.

(** ** Exceptions *)

(** The exceptions the modelled operations raise.  All of them are subclasses
    of [Exception]; [RendererError msg] stands for whatever the PDF renderer
    raises, [msg] being its [str()], and [OtherException class_name msg] for
    an exception of any other class, raised by what lies outside the
    scripts. *)
Inductive exn : Type :=
| FileNotFoundError (path : string)
| UnicodeDecodeError
| ValueError (msg : string)
| RendererError (msg : string)
| OtherException (class_name msg : string).

Inductive outcome (A : Type) : Type :=
| Return (a : A)
| Raise (e : exn).
Arguments Return {A} a.
Arguments Raise {A} e.

(** ** The world *)

Inductive mode : Type := ReadText | WriteText.

(** A file object: the path it was opened on and how. *)
Record handle : Type := Handle { h_path : string; h_mode : mode }.

#[global] Instance mode_eq_dec : EqDecision mode.
Proof. solve_decision. Defined.

#[global] Instance handle_eq_dec : EqDecision handle.
Proof. solve_decision. Defined.

(** The file operations a run performs, for counting them. *)
Inductive io_event : Type :=
| EvOpen (path : string) (m : mode)
| EvRead (path : string)
| EvWrite (path : string)
| EvClose (path : string)
| EvRender (path : string).

#[global] Instance io_event_eq_dec : EqDecision io_event.
Proof. solve_decision. Defined.

(** [files]: the regular files of the working directory, by name, with their
    bytes (every path the scripts use is a bare file name).  [stdout]: the
    arguments of the [print] calls so far, oldest first.  [open_files]: the
    file objects that are open.  [io_log]: the file operations so far, oldest
    first. *)
Record world : Type := World {
  files : gmap string string;
  stdout : list string;
  open_files : list handle;
  io_log : list io_event
}.

Definition set_files (f : gmap string string) (w : world) : world :=
  World f (stdout w) (open_files w) (io_log w).
Definition add_stdout (s : string) (w : world) : world :=
  World (files w) (stdout w ++ [s]) (open_files w) (io_log w).
Definition set_open_files (l : list handle) (w : world) : world :=
  World (files w) (stdout w) l (io_log w).
Definition log_event (e : io_event) (w : world) : world :=
  World (files w) (stdout w) (open_files w) (io_log w ++ [e]).

(** ** The monad of scripts *)

Definition M (A : Type) : Type := world -> outcome A * world.

Definition ret {A} (a : A) : M A := fun w => (Return a, w).

Definition raise {A} (e : exn) : M A := fun w => (Raise e, w).

Definition bind {A B} (m : M A) (k : A -> M B) : M B :=
  fun w =>
    match m w with
    | (Return a, w') => k a w'
    | (Raise e, w') => (Raise e, w')
    end.

Declare Scope script_scope.
Delimit Scope script_scope with script.
Notation "x <- m ;; k" := (bind m (fun x => k))
  (at level 100, m at next level, right associativity) : script_scope.
Notation "m ;; k" := (bind m (fun _ => k))
  (at level 100, right associativity) : script_scope.
Open Scope script_scope.

(** [try: body except Exception as e: handler e]. Every [exn] is an
    [Exception], so the handler catches them all. *)
Definition try_except {A} (body : M A) (handler : exn -> M A) : M A :=
  fun w =>
    match body w with
    | (Return a, w') => (Return a, w')
    | (Raise e, w') => handler e w'
    end.

(** [str(e)], as spliced into a message.  Only the renderer's exception ever
    reaches an [except] clause; the texts of the others are abridged. *)
Definition str_of_exn (e : exn) : string :=
  match e with
  | FileNotFoundError p =>
      "[Errno 2] No such file or directory: '" +:+ p +:+ "'"
  | UnicodeDecodeError => "'utf-8' codec can't decode bytes"
  | ValueError msg => msg
  | RendererError msg => msg
  | OtherException _ msg => msg
  end.

(** *** Built-ins *)

(** [print(s)]. *)
Definition print (s : string) : M unit :=
  fun w => (Return tt, add_stdout s w).

(** [Path(p).exists()]. *)
Definition path_exists (p : string) : M bool :=
  fun w => (Return (bool_decide (is_Some (files w !! p))), w).

(** [open(p, 'r', encoding='utf-8')] and [open(p, 'w', encoding='utf-8')]:
    opening for reading needs the file; opening for writing creates it or
    empties it. *)
Definition open (p : string) (m : mode) : M handle :=
  fun w =>
    match m with
    | ReadText =>
        match files w !! p with
        | Some _ =>
            (Return (Handle p ReadText),
             log_event (EvOpen p ReadText)
               (set_open_files (Handle p ReadText :: open_files w) w))
        | None => (Raise (FileNotFoundError p), w)
        end
    | WriteText =>
        (Return (Handle p WriteText),
         log_event (EvOpen p WriteText)
           (set_open_files (Handle p WriteText :: open_files w)
              (set_files (<[p := ""]> (files w)) w)))
    end.

(** Removes one occurrence of [h], the first. *)
Fixpoint remove_first (h : handle) (l : list handle) : list handle :=
  match l with
  | [] => []
  | h' :: l' => if decide (h = h') then l' else h' :: remove_first h l'
  end.

(** [f.close()], which [__exit__] calls. *)
Definition close (h : handle) : M unit :=
  fun w =>
    (Return tt,
     log_event (EvClose (h_path h))
       (set_open_files (remove_first h (open_files w)) w)).

Definition is_open (h : handle) (w : world) : bool :=
  bool_decide (h ∈ open_files w).

(** [f.read()] on a file object opened for reading: the whole file, decoded. *)
Definition read (h : handle) : M text :=
  fun w =>
    if is_open h w then
      match h_mode h with
      | ReadText =>
          match files w !! h_path h with
          | Some b =>
              match decode_text b with
              | Some s => (Return s, log_event (EvRead (h_path h)) w)
              | None => (Raise UnicodeDecodeError, log_event (EvRead (h_path h)) w)
              end
          | None => (Raise (FileNotFoundError (h_path h)), w)
          end
      | WriteText => (Raise (ValueError "not readable"), w)
      end
    else (Raise (ValueError "I/O operation on closed file."), w).

(** [f.write(s)] on a file object opened for writing: appends to what the
    file object has written since it was opened. *)
Definition write (h : handle) (s : text) : M unit :=
  fun w =>
    if is_open h w then
      match h_mode h with
      | WriteText =>
          (Return tt,
           log_event (EvWrite (h_path h))
             (set_files
                (<[h_path h := default "" (files w !! h_path h) +:+ encode_text s]>
                   (files w)) w))
      | ReadText => (Raise (ValueError "not writable"), w)
      end
    else (Raise (ValueError "I/O operation on closed file."), w).

(** [with open(p, m, encoding='utf-8') as f: body f].  The file object is
    closed when the block is left, by its end or by an exception. *)
Definition with_open {A} (p : string) (m : mode) (body : handle -> M A) : M A :=
  fun w =>
    match open p m w with
    | (Return f, w1) =>
        match body f w1 with
        | (r, w2) => (r, snd (close f w2))
        end
    | (Raise e, w1) => (Raise e, w1)
    end.

(** ** The pages

    Each function builds its page with an f-string: fixed text, the
    transformed report spliced in at [{html}], fixed text.  The fixed text is
    given here as it is after the f-string's doubled braces are read as
    single ones; [_before] is the text up to [{html}] and [_after] the text
    that follows it. *)
(** [html_document] of [convert_markdown_to_pdf] ([generate_pdf_report.py]). *)
Definition pdf_before : string :=
  "
    <!DOCTYPE html>
    <html>
    <head>
        <meta charset=" +:+ dq +:+ "utf-8" +:+ dq +:+ ">
        <title>IB Computer Science HL - Criterion C Report</title>
        <style>
            body {
                font-family: 'Times New Roman', serif;
                line-height: 1.6;
                margin: 40px;
                color: #333;
            }
            
            h1 {
                color: #2c3e50;
                border-bottom: 3px solid #3498db;
                padding-bottom: 10px;
                page-break-before: always;
            }
            
            h1:first-child {
                page-break-before: auto;
            }
            
            h2 {
                color: #34495e;
                border-bottom: 2px solid #ecf0f1;
                padding-bottom: 5px;
                margin-top: 30px;
            }
            
            h3 {
                color: #7f8c8d;
                margin-top: 25px;
            }
            
            h4 {
                color: #95a5a6;
                margin-top: 20px;
            }
            
            code {
                background-color: #f8f9fa;
                border: 1px solid #e9ecef;
                border-radius: 3px;
                padding: 2px 4px;
                font-family: 'Courier New', monospace;
                font-size: 0.9em;
            }
            
            pre {
                background-color: #f8f9fa;
                border: 1px solid #e9ecef;
                border-radius: 5px;
                padding: 15px;
                overflow-x: auto;
                margin: 15px 0;
            }
            
            pre code {
                background: none;
                border: none;
                padding: 0;
            }
            
            table {
                border-collapse: collapse;
                width: 100%;
                margin: 20px 0;
            }
            
            th, td {
                border: 1px solid #ddd;
                padding: 12px;
                text-align: left;
            }
            
            th {
                background-color: #f2f2f2;
                font-weight: bold;
            }
            
            tr:nth-child(even) {
                background-color: #f9f9f9;
            }
            
            .algorithm-complexity {
                background-color: #e8f5e8;
                border-left: 4px solid #27ae60;
                padding: 10px;
                margin: 10px 0;
            }
            
            .code-explanation {
                background-color: #fff3cd;
                border-left: 4px solid #ffc107;
                padding: 10px;
                margin: 10px 0;
            }
            
            .performance-metric {
                background-color: #d1ecf1;
                border-left: 4px solid #17a2b8;
                padding: 10px;
                margin: 10px 0;
            }
            
            .page-break {
                page-break-before: always;
            }
            
            .no-break {
                page-break-inside: avoid;
            }
            
            ul, ol {
                margin: 15px 0;
                padding-left: 30px;
            }
            
            li {
                margin: 5px 0;
            }
            
            blockquote {
                border-left: 4px solid #3498db;
                margin: 20px 0;
                padding: 10px 20px;
                background-color: #f8f9fa;
            }
            
            .toc {
                background-color: #f8f9fa;
                border: 1px solid #e9ecef;
                border-radius: 5px;
                padding: 20px;
                margin: 20px 0;
            }
            
            .toc h2 {
                margin-top: 0;
                color: #2c3e50;
            }
            
            .toc ul {
                list-style-type: none;
                padding-left: 0;
            }
            
            .toc li {
                margin: 5px 0;
            }
            
            .toc a {
                text-decoration: none;
                color: #3498db;
            }
            
            .toc a:hover {
                text-decoration: underline;
            }
            
            @media print {
                body {
                    margin: 20px;
                }
                
                h1, h2, h3, h4 {
                    page-break-after: avoid;
                }
                
                pre, blockquote {
                    page-break-inside: avoid;
                }
                
                table {
                    page-break-inside: avoid;
                }
            }
        </style>
    </head>
    <body>
        ".

Definition pdf_after : string :=
  "
    </body>
    </html>
    ".

Definition html_document_pdf (html : text) : text :=
  pdf_before +:+ html +:+ pdf_after.

(** [html_document] of [create_simplified_pdf] ([generate_pdf_report.py]). *)
Definition simplified_before : string :=
  "
    <!DOCTYPE html>
    <html>
    <head>
        <meta charset=" +:+ dq +:+ "utf-8" +:+ dq +:+ ">
        <title>IB Computer Science HL - Criterion C Report</title>
        <style>
            body { font-family: Arial, sans-serif; margin: 40px; line-height: 1.6; }
            h1 { color: #2c3e50; border-bottom: 2px solid #3498db; }
            h2 { color: #34495e; border-bottom: 1px solid #ecf0f1; }
            code { background-color: #f8f9fa; padding: 2px 4px; border-radius: 3px; }
            pre { background-color: #f8f9fa; padding: 15px; border-radius: 5px; overflow-x: auto; }
            table { border-collapse: collapse; width: 100%; margin: 20px 0; }
            th, td { border: 1px solid #ddd; padding: 12px; text-align: left; }
            th { background-color: #f2f2f2; }
        </style>
    </head>
    <body>
        ".

Definition simplified_after : string :=
  "
    </body>
    </html>
    ".

Definition html_document_simplified (html : text) : text :=
  simplified_before +:+ html +:+ simplified_after.

(** [html_document] of [convert_markdown_to_html] ([simple_pdf_generator.py]). *)
Definition standard_before : string :=
  "
    <!DOCTYPE html>
    <html>
    <head>
        <meta charset=" +:+ dq +:+ "utf-8" +:+ dq +:+ ">
        <title>IB Computer Science HL - Criterion C Report</title>
        <style>
            @page {
                size: A4;
                margin: 2.5cm;
            }
            
            body {
                font-family: 'Times New Roman', serif;
                line-height: 1.6;
                color: #333;
                font-size: 12pt;
            }
            
            h1 {
                color: #2c3e50;
                border-bottom: 3px solid #3498db;
                padding-bottom: 10px;
                page-break-before: always;
                font-size: 18pt;
                margin-top: 0;
            }
            
            h1:first-child {
                page-break-before: auto;
            }
            
            h2 {
                color: #34495e;
                border-bottom: 2px solid #ecf0f1;
                padding-bottom: 5px;
                margin-top: 30px;
                font-size: 16pt;
            }
            
            h3 {
                color: #7f8c8d;
                margin-top: 25px;
                font-size: 14pt;
            }
            
            h4 {
                color: #95a5a6;
                margin-top: 20px;
                font-size: 13pt;
            }
            
            code {
                background-color: #f8f9fa;
                border: 1px solid #e9ecef;
                border-radius: 3px;
                padding: 2px 4px;
                font-family: 'Courier New', monospace;
                font-size: 10pt;
            }
            
            pre {
                background-color: #f8f9fa;
                border: 1px solid #e9ecef;
                border-radius: 5px;
                padding: 15px;
                overflow-x: auto;
                margin: 15px 0;
                font-family: 'Courier New', monospace;
                font-size: 10pt;
                page-break-inside: avoid;
            }
            
            pre code {
                background: none;
                border: none;
                padding: 0;
            }
            
            table {
                border-collapse: collapse;
                width: 100%;
                margin: 20px 0;
                font-size: 11pt;
                page-break-inside: avoid;
            }
            
            th, td {
                border: 1px solid #ddd;
                padding: 8px;
                text-align: left;
            }
            
            th {
                background-color: #f2f2f2;
                font-weight: bold;
            }
            
            tr:nth-child(even) {
                background-color: #f9f9f9;
            }
            
            .algorithm-complexity {
                background-color: #e8f5e8;
                border-left: 4px solid #27ae60;
                padding: 10px;
                margin: 10px 0;
                page-break-inside: avoid;
            }
            
            .code-explanation {
                background-color: #fff3cd;
                border-left: 4px solid #ffc107;
                padding: 10px;
                margin: 10px 0;
                page-break-inside: avoid;
            }
            
            .performance-metric {
                background-color: #d1ecf1;
                border-left: 4px solid #17a2b8;
                padding: 10px;
                margin: 10px 0;
                page-break-inside: avoid;
            }
            
            ul, ol {
                margin: 15px 0;
                padding-left: 30px;
            }
            
            li {
                margin: 5px 0;
            }
            
            blockquote {
                border-left: 4px solid #3498db;
                margin: 20px 0;
                padding: 10px 20px;
                background-color: #f8f9fa;
                page-break-inside: avoid;
            }
            
            .toc {
                background-color: #f8f9fa;
                border: 1px solid #e9ecef;
                border-radius: 5px;
                padding: 20px;
                margin: 20px 0;
                page-break-inside: avoid;
            }
            
            .toc h2 {
                margin-top: 0;
                color: #2c3e50;
            }
            
            .toc ul {
                list-style-type: none;
                padding-left: 0;
            }
            
            .toc li {
                margin: 5px 0;
            }
            
            .toc a {
                text-decoration: none;
                color: #3498db;
            }
            
            .toc a:hover {
                text-decoration: underline;
            }
            
            .page-break {
                page-break-before: always;
            }
            
            .no-break {
                page-break-inside: avoid;
            }
            
            @media print {
                body {
                    margin: 0;
                }
                
                h1, h2, h3, h4 {
                    page-break-after: avoid;
                }
                
                pre, blockquote {
                    page-break-inside: avoid;
                }
                
                table {
                    page-break-inside: avoid;
                }
            }
        </style>
    </head>
    <body>
        ".

Definition standard_after : string :=
  "
    </body>
    </html>
    ".

Definition html_document_standard (html : text) : text :=
  standard_before +:+ html +:+ standard_after.

(** [html_document] of [create_simple_html] ([simple_pdf_generator.py]). *)
Definition print_before : string :=
  "
    <!DOCTYPE html>
    <html>
    <head>
        <meta charset=" +:+ dq +:+ "utf-8" +:+ dq +:+ ">
        <title>IB Computer Science HL - Criterion C Report</title>
        <style>
            @media print {
                @page {
                    size: A4;
                    margin: 2cm;
                }
                
                body {
                    font-family: 'Times New Roman', serif;
                    font-size: 12pt;
                    line-height: 1.5;
                    color: #000;
                }
                
                h1 {
                    font-size: 18pt;
                    color: #000;
                    border-bottom: 2px solid #000;
                    page-break-before: always;
                    margin-top: 0;
                }
                
                h1:first-child {
                    page-break-before: auto;
                }
                
                h2 {
                    font-size: 16pt;
                    color: #000;
                    border-bottom: 1px solid #000;
                    margin-top: 20pt;
                }
                
                h3 {
                    font-size: 14pt;
                    color: #000;
                    margin-top: 15pt;
                }
                
                h4 {
                    font-size: 13pt;
                    color: #000;
                    margin-top: 10pt;
                }
                
                code {
                    font-family: 'Courier New', monospace;
                    font-size: 10pt;
                    background-color: #f5f5f5;
                    padding: 1px 3px;
                }
                
                pre {
                    font-family: 'Courier New', monospace;
                    font-size: 9pt;
                    background-color: #f5f5f5;
                    padding: 10pt;
                    border: 1px solid #ccc;
                    page-break-inside: avoid;
                    overflow-x: auto;
                }
                
                table {
                    border-collapse: collapse;
                    width: 100%;
                    font-size: 10pt;
                    page-break-inside: avoid;
                }
                
                th, td {
                    border: 1px solid #000;
                    padding: 5pt;
                    text-align: left;
                }
                
                th {
                    background-color: #f0f0f0;
                    font-weight: bold;
                }
                
                ul, ol {
                    margin: 10pt 0;
                    padding-left: 20pt;
                }
                
                li {
                    margin: 3pt 0;
                }
                
                blockquote {
                    border-left: 3px solid #000;
                    margin: 10pt 0;
                    padding: 5pt 10pt;
                    background-color: #f9f9f9;
                }
            }
            
            @media screen {
                body {
                    font-family: Arial, sans-serif;
                    max-width: 800px;
                    margin: 0 auto;
                    padding: 20px;
                    line-height: 1.6;
                }
                
                h1 {
                    color: #2c3e50;
                    border-bottom: 3px solid #3498db;
                }
                
                h2 {
                    color: #34495e;
                    border-bottom: 2px solid #ecf0f1;
                }
                
                code {
                    background-color: #f8f9fa;
                    padding: 2px 4px;
                    border-radius: 3px;
                }
                
                pre {
                    background-color: #f8f9fa;
                    padding: 15px;
                    border-radius: 5px;
                    overflow-x: auto;
                }
                
                table {
                    border-collapse: collapse;
                    width: 100%;
                }
                
                th, td {
                    border: 1px solid #ddd;
                    padding: 8px;
                    text-align: left;
                }
                
                th {
                    background-color: #f2f2f2;
                }
            }
        </style>
    </head>
    <body>
        ".

Definition print_after : string :=
  "
    </body>
    </html>
    ".

Definition html_document_print (html : text) : text :=
  print_before +:+ html +:+ print_after.

(** ** The external collaborators *)

(** A value of the [options] dictionary handed to the renderer. *)
Inductive option_value : Type :=
| OStr (s : string)
| OInt (n : N)
| ONone.

(** The dictionary itself, in insertion order. *)
Abbreviation pdf_options := (list (string * option_value)) (only parsing).

(** What the HTML-to-PDF renderer does with a page and a configuration: it
    hands back the bytes of the PDF, or fails with a message.  The library is
    given the output path and reports a failure of the executable only after
    it ran, so a failed call may have left a file at that path: [leftover] is
    what it left there, if anything. *)
Inductive render_result : Type :=
| Rendered (pdf : string)
| RenderFailed (msg : string) (leftover : option string).

Definition nl : string := String LF EmptyString.


(** A fresh process: nothing printed, no file object open, nothing logged. *)
Definition initial_world (fs : gmap string string) : world :=
  World fs [] [] [].

Section Scripts.

(** [markdown.markdown(text, extensions=[...])] of the Markdown library. *)
Variable markdown : text -> list string -> text.

(** The renderer behind [pdfkit]. *)
Variable wkhtmltopdf : text -> pdf_options -> render_result.

(** [pdfkit.from_string(input, output_path, options=options)]: writes the
    PDF and returns [True], or raises, after the renderer has left at the
    output path whatever it left there. *)
Definition pdfkit_from_string
    (input : text) (output_path : string) (options : pdf_options) : M bool :=
  fun w =>
    match wkhtmltopdf input options with
    | Rendered pdf =>
        (Return true,
         log_event (EvRender output_path)
           (set_files (<[output_path := pdf]> (files w)) w))
    | RenderFailed msg None => (Raise (RendererError msg), w)
    | RenderFailed msg (Some partial) =>
        (Raise (RendererError msg),
         log_event (EvRender output_path)
           (set_files (<[output_path := partial]> (files w)) w))
    end.

(** *** generate_pdf_report.py *)

Definition convert_markdown_to_pdf : M bool :=
  let markdown_file := "IB_CS_HL_Criterion_C_Report.md" in
  present <- path_exists markdown_file ;;
  if negb present then
    print ("Error: " +:+ markdown_file +:+ " not found!") ;;
    ret false
  else
    markdown_content <- with_open markdown_file ReadText (fun f => read f) ;;
    let html := markdown markdown_content
      [ "markdown.extensions.tables";
        "markdown.extensions.fenced_code";
        "markdown.extensions.toc";
        "markdown.extensions.codehilite" ] in
    let html_document := html_document_pdf html in
    let options : pdf_options :=
      [ ("page-size", OStr "A4");
        ("margin-top", OStr "1in");
        ("margin-right", OStr "1in");
        ("margin-bottom", OStr "1in");
        ("margin-left", OStr "1in");
        ("encoding", OStr "UTF-8");
        ("no-outline", ONone);
        ("enable-local-file-access", ONone);
        ("print-media-type", ONone);
        ("dpi", OInt 300) ] in
    try_except
      (pdfkit_from_string html_document "IB_CS_HL_Criterion_C_Report.pdf" options ;;
       print "✅ PDF report generated successfully: IB_CS_HL_Criterion_C_Report.pdf" ;;
       ret true)
      (fun e =>
         print ("❌ Error generating PDF: " +:+ str_of_exn e) ;;
         print (nl +:+ "Note: You may need to install wkhtmltopdf:") ;;
         print "  - macOS: brew install wkhtmltopdf" ;;
         print "  - Ubuntu: sudo apt-get install wkhtmltopdf" ;;
         print "  - Windows: Download from https://wkhtmltopdf.org/downloads.html" ;;
         ret false).

Definition create_simplified_pdf : M bool :=
  let markdown_file := "IB_CS_HL_Criterion_C_Report.md" in
  present <- path_exists markdown_file ;;
  if negb present then
    print ("Error: " +:+ markdown_file +:+ " not found!") ;;
    ret false
  else
    markdown_content <- with_open markdown_file ReadText (fun f => read f) ;;
    let html := markdown markdown_content
      [ "markdown.extensions.tables";
        "markdown.extensions.fenced_code";
        "markdown.extensions.toc";
        "markdown.extensions.codehilite" ] in
    let html_document := html_document_simplified html in
    with_open "IB_CS_HL_Criterion_C_Report.html" WriteText
      (fun f => write f html_document) ;;
    print "✅ HTML report generated: IB_CS_HL_Criterion_C_Report.html" ;;
    print "   You can open this file in a web browser and print to PDF" ;;
    ret true.

(** The body of [if __name__ == "__main__":]. *)
Definition generate_pdf_report_main : M unit :=
  print "🔄 Generating IB Computer Science HL Criterion C Report..." ;;
  converted <- convert_markdown_to_pdf ;;
  (if converted : bool then
     print (nl +:+ "📄 Report successfully converted to PDF!") ;;
     print "   File: IB_CS_HL_Criterion_C_Report.pdf"
   else
     print (nl +:+ "⚠️  PDF generation failed, creating HTML version instead...") ;;
     create_simplified_pdf ;;
     print (nl +:+ "📄 HTML report created!") ;;
     print "   File: IB_CS_HL_Criterion_C_Report.html" ;;
     print "   You can open this in a browser and print to PDF") ;;
  print (nl +:+ "✨ Report generation complete!").

(** *** simple_pdf_generator.py *)

Definition convert_markdown_to_html : M bool :=
  let markdown_file := "IB_CS_HL_Criterion_C_Report.md" in
  present <- path_exists markdown_file ;;
  if negb present then
    print ("Error: " +:+ markdown_file +:+ " not found!") ;;
    ret false
  else
    markdown_content <- with_open markdown_file ReadText (fun f => read f) ;;
    let html := markdown markdown_content
      [ "markdown.extensions.tables";
        "markdown.extensions.fenced_code";
        "markdown.extensions.toc";
        "markdown.extensions.codehilite" ] in
    let html_document := html_document_standard html in
    with_open "IB_CS_HL_Criterion_C_Report.html" WriteText
      (fun f => write f html_document) ;;
    print "✅ HTML report generated: IB_CS_HL_Criterion_C_Report.html" ;;
    ret true.

Definition create_simple_html : M bool :=
  let markdown_file := "IB_CS_HL_Criterion_C_Report.md" in
  present <- path_exists markdown_file ;;
  if negb present then
    print ("Error: " +:+ markdown_file +:+ " not found!") ;;
    ret false
  else
    markdown_content <- with_open markdown_file ReadText (fun f => read f) ;;
    let html := markdown markdown_content
      [ "markdown.extensions.tables";
        "markdown.extensions.fenced_code";
        "markdown.extensions.toc";
        "markdown.extensions.codehilite" ] in
    let html_document := html_document_print html in
    with_open "IB_CS_HL_Criterion_C_Report_Print.html" WriteText
      (fun f => write f html_document) ;;
    print "✅ Print-optimized HTML report generated: IB_CS_HL_Criterion_C_Report_Print.html" ;;
    ret true.

(** The body of [if __name__ == "__main__":]. *)
Definition simple_pdf_generator_main : M unit :=
  print "🔄 Generating IB Computer Science HL Criterion C Report..." ;;
  standard <- convert_markdown_to_html ;;
  (if standard : bool then print "✅ Standard HTML report created!" else ret tt) ;;
  printable <- create_simple_html ;;
  (if printable : bool then print "✅ Print-optimized HTML report created!" else ret tt) ;;
  print (nl +:+ "📄 Reports generated successfully!") ;;
  print "   Files created:" ;;
  print "   - IB_CS_HL_Criterion_C_Report.html (standard version)" ;;
  print "   - IB_CS_HL_Criterion_C_Report_Print.html (print-optimized)" ;;
  print (nl +:+ "💡 To convert to PDF:") ;;
  print "   1. Open either HTML file in a web browser" ;;
  print "   2. Press Ctrl+P (or Cmd+P on Mac)" ;;
  print "   3. Select 'Save as PDF' as destination" ;;
  print "   4. Choose 'More settings' and set margins to 'Minimum'" ;;
  print "   5. Click 'Save'" ;;
  print (nl +:+ "✨ Report generation complete!").

End Scripts.

(** ** Names used in the statements *)

Abbreviation report_md := "IB_CS_HL_Criterion_C_Report.md" (only parsing).
Abbreviation report_html := "IB_CS_HL_Criterion_C_Report.html" (only parsing).
Abbreviation report_print_html :=
  "IB_CS_HL_Criterion_C_Report_Print.html" (only parsing).
Abbreviation report_pdf := "IB_CS_HL_Criterion_C_Report.pdf" (only parsing).
Abbreviation not_found_message :=
  "Error: IB_CS_HL_Criterion_C_Report.md not found!" (only parsing).

(** The extension list each of the four functions writes out. *)
Abbreviation extensions_in_use :=
  [ "markdown.extensions.tables";
    "markdown.extensions.fenced_code";
    "markdown.extensions.toc";
    "markdown.extensions.codehilite" ] (only parsing).

(** The [options] dictionary of [convert_markdown_to_pdf]. *)
Abbreviation pdf_options_in_use :=
  [ ("page-size", OStr "A4");
    ("margin-top", OStr "1in");
    ("margin-right", OStr "1in");
    ("margin-bottom", OStr "1in");
    ("margin-left", OStr "1in");
    ("encoding", OStr "UTF-8");
    ("no-outline", ONone);
    ("enable-local-file-access", ONone);
    ("print-media-type", ONone);
    ("dpi", OInt 300) ] (only parsing).

(** The three operations of reading the report, and of writing a page. *)
Abbreviation load_events :=
  [ EvOpen report_md ReadText; EvRead report_md; EvClose report_md ]
  (only parsing).
Abbreviation store_events p :=
  [ EvOpen p WriteText; EvWrite p; EvClose p ] (only parsing).

(** The directory after a failed renderer call that left [leftover] at the PDF
    path, and what such a call adds to the log. *)
Definition after_failed_render (leftover : option string)
    (fs : gmap string string) : gmap string string :=
  match leftover with
  | Some partial => <[report_pdf := partial]> fs
  | None => fs
  end.

Definition failed_render_events (leftover : option string) : list io_event :=
  match leftover with
  | Some _ => [EvRender report_pdf]
  | None => []
  end.

(** What the source path holds, as the scripts can tell: nothing, a file the
    codec rejects, or a text. *)
Inductive source_state : Type :=
| Absent
| Undecodable
| Readable (t : text).

Definition source_of (fs : gmap string string) : source_state :=
  match fs !! report_md with
  | None => Absent
  | Some b =>
      match decode_text b with
      | Some t => Readable t
      | None => Undecodable
      end
  end.

(** How often [p] was read, by the log. *)
Definition reads_of (p : string) (log : list io_event) : nat :=
  length (filter (fun e => e = EvRead p) log).

(** Writes to [p]: by a file object (opening for writing truncates) or by
    the renderer. *)
Definition is_write_to (p : string) (e : io_event) : bool :=
  match e with
  | EvOpen q WriteText | EvWrite q | EvRender q => bool_decide (q = p)
  | _ => false
  end.
Definition writes_of (p : string) (log : list io_event) : nat :=
  length (filter (fun e => is_write_to p e = true) log).

(** *** Collaborators and file systems for the closed examples *)

(** A stand-in for the Markdown library: one paragraph around the text. *)
Definition paragraph_markdown (t : text) (extensions : list string) : text :=
  "<p>" +:+ t +:+ "</p>".

(** The renderer when [wkhtmltopdf] is not installed. *)
Definition missing_renderer (html : text) (options : pdf_options) : render_result :=
  RenderFailed "No wkhtmltopdf executable found" None.


(** A renderer that works. *)
Definition working_renderer (html : text) (options : pdf_options) : render_result :=
  Rendered ("%PDF-1.4" +:+ nl +:+ html).

(** A working directory with the report in it, one that also holds the
    outputs of an earlier run, one without the report, and one where the
    report was saved as Latin-1 (["# R\xe9sum\xe9"]). *)
Definition fs_report : gmap string string :=
  {[ report_md := "# Title" +:+ nl +:+ nl +:+ "Text." +:+ nl ]}.

Definition fs_rerun : gmap string string :=
  <[ report_html := "<html>old</html>" ]>
    (<[ report_pdf := "%PDF-old" ]> fs_report).

Definition fs_no_report : gmap string string := ∅.


(** *** What the scripts print *)

Definition generating_message : string :=
  "🔄 Generating IB Computer Science HL Criterion C Report...".
Definition pdf_generated_message : string :=
  "✅ PDF report generated successfully: IB_CS_HL_Criterion_C_Report.pdf".
Definition falling_back_message : string :=
  nl +:+ "⚠️  PDF generation failed, creating HTML version instead...".
Definition complete_message : string :=
  nl +:+ "✨ Report generation complete!".

(** The [except] branch of [convert_markdown_to_pdf], for an exception whose
    [str()] is [msg]. *)
Definition renderer_failure_messages (msg : string) : list string :=
  [ "❌ Error generating PDF: " +:+ msg;
    nl +:+ "Note: You may need to install wkhtmltopdf:";
    "  - macOS: brew install wkhtmltopdf";
    "  - Ubuntu: sudo apt-get install wkhtmltopdf";
    "  - Windows: Download from https://wkhtmltopdf.org/downloads.html" ].

(** The success branch of [create_simplified_pdf]. *)
Definition html_generated_messages : list string :=
  [ "✅ HTML report generated: IB_CS_HL_Criterion_C_Report.html";
    "   You can open this file in a web browser and print to PDF" ].

(** The two branches of the script body of [generate_pdf_report.py], after
    the call. *)
Definition pdf_converted_messages : list string :=
  [ nl +:+ "📄 Report successfully converted to PDF!";
    "   File: IB_CS_HL_Criterion_C_Report.pdf" ].
Definition html_created_messages : list string :=
  [ nl +:+ "📄 HTML report created!";
    "   File: IB_CS_HL_Criterion_C_Report.html";
    "   You can open this in a browser and print to PDF" ].

(** The lines the script body of [simple_pdf_generator.py] prints after the
    two calls, but for the last. *)
Definition reports_generated_messages : list string :=
  [ nl +:+ "📄 Reports generated successfully!";
    "   Files created:";
    "   - IB_CS_HL_Criterion_C_Report.html (standard version)";
    "   - IB_CS_HL_Criterion_C_Report_Print.html (print-optimized)";
    nl +:+ "💡 To convert to PDF:";
    "   1. Open either HTML file in a web browser";
    "   2. Press Ctrl+P (or Cmd+P on Mac)";
    "   3. Select 'Save as PDF' as destination";
    "   4. Choose 'More settings' and set margins to 'Minimum'";
    "   5. Click 'Save'" ].

(** *** The parts of a page

    Every page opens the same way up to its [<style>] tag and continues the
    same way from its [</style>] tag on; what lies between the two tags are
    the page's style rules. *)
Definition page_open : string :=
  "
    <!DOCTYPE html>
    <html>
    <head>
        <meta charset=" +:+ dq +:+ "utf-8" +:+ dq +:+ ">
        <title>IB Computer Science HL - Criterion C Report</title>
        <style>".

Definition page_body_open : string :=
  "</style>
    </head>
    <body>
        ".

Definition page_close : string :=
  "
    </body>
    </html>
    ".

(** The text of [s] after its first [n] characters and before its last [m]. *)
Definition middle (n m : nat) (s : string) : string :=
  String.substring n (String.length s - n - m) s.

Definition style_rules (before : string) : string :=
  middle (String.length page_open) (String.length page_body_open) before.

Definition standard_style : string := style_rules standard_before.
Definition print_style : string := style_rules print_before.

(** *** [renderHtml], as the specification words it

    "Applies the Markdown transform, then embeds the result inside a style
    template chosen from {standard, print-optimized, simplified}." *)
Inductive style_variant : Type := Standard | PrintOptimized | Simplified.

Definition style_template (v : style_variant) : text -> text :=
  match v with
  | Standard => html_document_standard
  | PrintOptimized => html_document_print
  | Simplified => html_document_simplified
  end.

Definition renderHtml (markdown : text -> list string -> text)
    (source : text) (v : style_variant) : text :=
  style_template v (markdown source extensions_in_use).

(** The function that writes a variant, and where it writes it. *)
Definition conversion (markdown : text -> list string -> text)
    (v : style_variant) : M bool :=
  match v with
  | Standard => convert_markdown_to_html markdown
  | PrintOptimized => create_simple_html markdown
  | Simplified => create_simplified_pdf markdown
  end.

Definition output_path (v : style_variant) : string :=
  match v with
  | Standard => report_html
  | PrintOptimized => report_print_html
  | Simplified => report_html
  end.

(** The common opening of the four functions: the existence test and the
    read, continued by [k] on the text. *)
Definition load_then {A} (k : text -> M A) (absent : M A) : M A :=
  present <- path_exists report_md ;;
  if negb present then absent
  else markdown_content <- with_open report_md ReadText (fun f => read f) ;;
       k markdown_content.

(** How often a run read the report, and how often it wrote to it. *)
Definition source_reads {A} (run : outcome A * world) : nat :=
  reads_of report_md (io_log (snd run)).
Definition source_writes {A} (run : outcome A * world) : nat :=
  writes_of report_md (io_log (snd run)).

(** *** Line endings

    [to_crlf] saves a text the way an editor on Windows does: every line
    feed becomes a carriage return and a line feed.  [no_cr] holds of the
    texts that have no carriage return of their own. *)
Fixpoint to_crlf (s : bytes) : bytes :=
  match s with
  | EmptyString => EmptyString
  | String c rest =>
      if Ascii.eqb c LF then String CR (String LF (to_crlf rest))
      else String c (to_crlf rest)
  end.

Fixpoint no_cr (s : bytes) : bool :=
  match s with
  | EmptyString => true
  | String c rest => negb (Ascii.eqb c CR) && no_cr rest
  end.

(** The decoder states the codec can be in: inside a sequence, the next
    byte is always asked to be a continuation byte or above. *)
Definition state_ok (st : utf8_state) : Prop :=
  match st with
  | AtBoundary => True
  | Expect lo _ _ => (0x80 <= lo)%N
  end.

(** The report of [fs_report], saved with Windows line endings. *)
Definition fs_report_crlf : gmap string string :=
  {[ report_md :=
       "# Title" +:+ String CR nl +:+ String CR nl +:+ "Text." +:+ String CR nl ]}.

(** Texts made of 7-bit characters only. *)
Fixpoint is_ascii_text (s : bytes) : bool :=
  match s with
  | EmptyString => true
  | String c rest => (N_of_ascii c <? 0x80)%N && is_ascii_text rest
  end.

(** ** The scripts in an environment that can fail

    The same four functions and two script bodies, with the operations that
    reach outside the script allowed to raise where the scripts above take
    them to go well: the Markdown transform may raise instead of returning,
    [print] may raise because standard output does not take the line (it is
    closed, or its encoding has no emoji), [open] may raise because the file
    does not open (permissions, a directory in its place), and [f.write] may
    raise because the disk does not take the bytes.  What each of them does
    is a parameter. *)
Module Fallible.
Section Environment.

(** [markdown.markdown(text, extensions=[...])]: the HTML, or an exception. *)
Variable markdown : text -> list string -> outcome text.

(** The renderer behind [pdfkit]. *)
Variable wkhtmltopdf : text -> pdf_options -> render_result.

(** The exception that [print(s)] raises, if it raises. *)
Variable stdout_refuses : string -> option exn.

(** The exception that [open(p, m)] raises, if the file does not open. *)
Variable open_refuses : string -> mode -> option exn.

(** The exception that writing [b] to the file at [p] raises, if it raises,
    and what had reached the file by then. *)
Variable disk_refuses : string -> bytes -> option (exn * bytes).

Definition markdown_markdown (source : text) (extensions : list string) : M text :=
  fun w => (markdown source extensions, w).

(** [print(s)]: the line is printed, or the exception is raised and nothing
    is printed. *)
Definition print (s : string) : M unit :=
  fun w =>
    match stdout_refuses s with
    | None => print s w
    | Some e => (Raise e, w)
    end.

(** [f.write(s)]: the text is written, or the exception is raised with part
    of the text in the file. *)
Definition write (h : handle) (s : text) : M unit :=
  fun w =>
    match disk_refuses (h_path h) (encode_text s) with
    | None => write h s w
    | Some (e, reached) =>
        match write h reached w with
        | (Return _, w') => (Raise e, w')
        | (Raise e', w') => (Raise e', w')
        end
    end.

(** [open(p, m, encoding='utf-8')]: the file object, or the exception with
    the file untouched. *)
Definition open (p : string) (m : mode) : M handle :=
  fun w =>
    match open_refuses p m with
    | None => open p m w
    | Some e => (Raise e, w)
    end.

(** [with open(p, m, encoding='utf-8') as f: body f], over that [open]. *)
Definition with_open {A} (p : string) (m : mode) (body : handle -> M A) : M A :=
  fun w =>
    match open p m w with
    | (Return f, w1) =>
        match body f w1 with
        | (r, w2) => (r, snd (close f w2))
        end
    | (Raise e, w1) => (Raise e, w1)
    end.

(** *** generate_pdf_report.py *)

Definition convert_markdown_to_pdf : M bool :=
  let markdown_file := "IB_CS_HL_Criterion_C_Report.md" in
  present <- path_exists markdown_file ;;
  if negb present then
    print ("Error: " +:+ markdown_file +:+ " not found!") ;;
    ret false
  else
    markdown_content <- with_open markdown_file ReadText (fun f => read f) ;;
    html <- markdown_markdown markdown_content
      [ "markdown.extensions.tables";
        "markdown.extensions.fenced_code";
        "markdown.extensions.toc";
        "markdown.extensions.codehilite" ] ;;
    let html_document := html_document_pdf html in
    let options : pdf_options :=
      [ ("page-size", OStr "A4");
        ("margin-top", OStr "1in");
        ("margin-right", OStr "1in");
        ("margin-bottom", OStr "1in");
        ("margin-left", OStr "1in");
        ("encoding", OStr "UTF-8");
        ("no-outline", ONone);
        ("enable-local-file-access", ONone);
        ("print-media-type", ONone);
        ("dpi", OInt 300) ] in
    try_except
      (pdfkit_from_string wkhtmltopdf html_document
         "IB_CS_HL_Criterion_C_Report.pdf" options ;;
       print "✅ PDF report generated successfully: IB_CS_HL_Criterion_C_Report.pdf" ;;
       ret true)
      (fun e =>
         print ("❌ Error generating PDF: " +:+ str_of_exn e) ;;
         print (nl +:+ "Note: You may need to install wkhtmltopdf:") ;;
         print "  - macOS: brew install wkhtmltopdf" ;;
         print "  - Ubuntu: sudo apt-get install wkhtmltopdf" ;;
         print "  - Windows: Download from https://wkhtmltopdf.org/downloads.html" ;;
         ret false).

Definition create_simplified_pdf : M bool :=
  let markdown_file := "IB_CS_HL_Criterion_C_Report.md" in
  present <- path_exists markdown_file ;;
  if negb present then
    print ("Error: " +:+ markdown_file +:+ " not found!") ;;
    ret false
  else
    markdown_content <- with_open markdown_file ReadText (fun f => read f) ;;
    html <- markdown_markdown markdown_content
      [ "markdown.extensions.tables";
        "markdown.extensions.fenced_code";
        "markdown.extensions.toc";
        "markdown.extensions.codehilite" ] ;;
    let html_document := html_document_simplified html in
    with_open "IB_CS_HL_Criterion_C_Report.html" WriteText
      (fun f => write f html_document) ;;
    print "✅ HTML report generated: IB_CS_HL_Criterion_C_Report.html" ;;
    print "   You can open this file in a web browser and print to PDF" ;;
    ret true.

(** The body of [if __name__ == "__main__":]. *)
Definition generate_pdf_report_main : M unit :=
  print "🔄 Generating IB Computer Science HL Criterion C Report..." ;;
  converted <- convert_markdown_to_pdf ;;
  (if converted : bool then
     print (nl +:+ "📄 Report successfully converted to PDF!") ;;
     print "   File: IB_CS_HL_Criterion_C_Report.pdf"
   else
     print (nl +:+ "⚠️  PDF generation failed, creating HTML version instead...") ;;
     create_simplified_pdf ;;
     print (nl +:+ "📄 HTML report created!") ;;
     print "   File: IB_CS_HL_Criterion_C_Report.html" ;;
     print "   You can open this in a browser and print to PDF") ;;
  print (nl +:+ "✨ Report generation complete!").

(** *** simple_pdf_generator.py *)

Definition convert_markdown_to_html : M bool :=
  let markdown_file := "IB_CS_HL_Criterion_C_Report.md" in
  present <- path_exists markdown_file ;;
  if negb present then
    print ("Error: " +:+ markdown_file +:+ " not found!") ;;
    ret false
  else
    markdown_content <- with_open markdown_file ReadText (fun f => read f) ;;
    html <- markdown_markdown markdown_content
      [ "markdown.extensions.tables";
        "markdown.extensions.fenced_code";
        "markdown.extensions.toc";
        "markdown.extensions.codehilite" ] ;;
    let html_document := html_document_standard html in
    with_open "IB_CS_HL_Criterion_C_Report.html" WriteText
      (fun f => write f html_document) ;;
    print "✅ HTML report generated: IB_CS_HL_Criterion_C_Report.html" ;;
    ret true.

Definition create_simple_html : M bool :=
  let markdown_file := "IB_CS_HL_Criterion_C_Report.md" in
  present <- path_exists markdown_file ;;
  if negb present then
    print ("Error: " +:+ markdown_file +:+ " not found!") ;;
    ret false
  else
    markdown_content <- with_open markdown_file ReadText (fun f => read f) ;;
    html <- markdown_markdown markdown_content
      [ "markdown.extensions.tables";
        "markdown.extensions.fenced_code";
        "markdown.extensions.toc";
        "markdown.extensions.codehilite" ] ;;
    let html_document := html_document_print html in
    with_open "IB_CS_HL_Criterion_C_Report_Print.html" WriteText
      (fun f => write f html_document) ;;
    print "✅ Print-optimized HTML report generated: IB_CS_HL_Criterion_C_Report_Print.html" ;;
    ret true.

(** The body of [if __name__ == "__main__":]. *)
Definition simple_pdf_generator_main : M unit :=
  print "🔄 Generating IB Computer Science HL Criterion C Report..." ;;
  standard <- convert_markdown_to_html ;;
  (if standard : bool then print "✅ Standard HTML report created!" else ret tt) ;;
  printable <- create_simple_html ;;
  (if printable : bool then print "✅ Print-optimized HTML report created!" else ret tt) ;;
  print (nl +:+ "📄 Reports generated successfully!") ;;
  print "   Files created:" ;;
  print "   - IB_CS_HL_Criterion_C_Report.html (standard version)" ;;
  print "   - IB_CS_HL_Criterion_C_Report_Print.html (print-optimized)" ;;
  print (nl +:+ "💡 To convert to PDF:") ;;
  print "   1. Open either HTML file in a web browser" ;;
  print "   2. Press Ctrl+P (or Cmd+P on Mac)" ;;
  print "   3. Select 'Save as PDF' as destination" ;;
  print "   4. Choose 'More settings' and set margins to 'Minimum'" ;;
  print "   5. Click 'Save'" ;;
  print (nl +:+ "✨ Report generation complete!").

(** The function that writes a variant. *)
Definition conversion (v : style_variant) : M bool :=
  match v with
  | Standard => convert_markdown_to_html
  | PrintOptimized => create_simple_html
  | Simplified => create_simplified_pdf
  end.

End Environment.
End Fallible.

(** *** Environments for the closed examples *)

(** A transform that returns what [markdown] computes. *)
Definition returning (markdown : text -> list string -> text)
    (source : text) (extensions : list string) : outcome text :=
  Return (markdown source extensions).


(** A standard output that takes everything, files that all open, and a
    disk that takes everything. *)
Definition open_stdout (s : string) : option exn := None.
Definition every_file_opens (p : string) (m : mode) : option exn := None.
Definition roomy_disk (p : string) (b : bytes) : option (exn * bytes) := None.

(** A standard output whose encoding is ASCII, and a disk that is full. *)
Definition ascii_stdout (s : string) : option exn :=
  if is_ascii_text s then None
  else Some (OtherException "UnicodeEncodeError"
               "'ascii' codec can't encode character").
Definition full_disk (p : string) (b : bytes) : option (exn * bytes) :=
  Some (OtherException "OSError" "[Errno 28] No space left on device", "").

(** A disk with room for [n] more bytes. *)
Definition disk_with_room (n : nat) (p : string) (b : bytes) : option (exn * bytes) :=
  if decide (String.length b <= n)%nat then None
  else Some (OtherException "OSError" "[Errno 28] No space left on device",
             String.substring 0 n b).

(** A directory in which no file opens for writing, and a report that its
    owner alone may read. *)
Definition read_only_directory (p : string) (m : mode) : option exn :=
  match m with
  | ReadText => None
  | WriteText =>
      Some (OtherException "PermissionError" "[Errno 13] Permission denied")
  end.


(** An invariant of scripts: the file objects open after a run are those
    open before it, however it ended. *)
Definition keeps_open_files {A} (m : M A) : Prop :=
  forall w, open_files (snd (m w)) = open_files w.

(** Scripts that touch standard output only. *)
Definition only_prints {A} (m : M A) : Prop :=
  forall w,
    files (snd (m w)) = files w /\
    open_files (snd (m w)) = open_files w /\
    io_log (snd (m w)) = io_log w.


(** The common opening of the four functions, over the [open] that may
    raise: the existence test and the read, continued by [k] on the text. *)
Definition fallible_load_then {A} (open_refuses : string -> mode -> option exn)
    (k : text -> M A) (absent : M A) : M A :=
  present <- path_exists report_md ;;
  if negb present then absent
  else markdown_content <-
         Fallible.with_open open_refuses report_md ReadText (fun f => read f) ;;
       k markdown_content.

(** The lines with which a conversion ends once its page is written. *)
Definition announce_written (stdout_refuses : string -> option exn)
    (v : style_variant) : M bool :=
  match v with
  | Standard =>
      Fallible.print stdout_refuses
        "✅ HTML report generated: IB_CS_HL_Criterion_C_Report.html" ;;
      ret true
  | PrintOptimized =>
      Fallible.print stdout_refuses
        "✅ Print-optimized HTML report generated: IB_CS_HL_Criterion_C_Report_Print.html" ;;
      ret true
  | Simplified =>
      Fallible.print stdout_refuses
        "✅ HTML report generated: IB_CS_HL_Criterion_C_Report.html" ;;
      Fallible.print stdout_refuses
        "   You can open this file in a web browser and print to PDF" ;;
      ret true
  end.


(** The world once the report has been read. *)
Definition loaded (w : world) : world :=
  World (files w) (stdout w) (open_files w) (io_log w ++ load_events).

(** * Properties *)

(** ** Running the built-ins *)

Ltac world_simpl :=
  unfold log_event, set_open_files, set_files, add_stdout;
  cbn [files stdout open_files io_log fst snd h_path h_mode];
  rewrite <- ?app_assoc; cbn [app].

Lemma bind_print {A} s (k : M A) w :
  bind (print s) (fun _ => k) w =
    k (World (files w) (stdout w ++ [s]) (open_files w) (io_log w)).
Proof. reflexivity. Qed.

Lemma bind_ret {A B} (a : A) (k : A -> M B) w : bind (ret a) k w = k a w.
Proof. reflexivity. Qed.

Lemma print_run s w :
  print s w =
    (Return tt, World (files w) (stdout w ++ [s]) (open_files w) (io_log w)).
Proof. reflexivity. Qed.

(** Runs a sequence of [print] calls, one at a time. *)
Ltac run_prints :=
  repeat (first [ rewrite bind_print | rewrite bind_ret | rewrite print_run ];
          cbn [files stdout open_files io_log]);
  unfold ret; rewrite <- ?app_assoc; cbn [app].

Lemma remove_first_head h l : remove_first h (h :: l) = l.
Proof. simpl. by rewrite decide_True. Qed.

Lemma is_open_head h fs out l log :
  is_open h (World fs out (h :: l) log) = true.
Proof. unfold is_open. apply bool_decide_eq_true. simpl. by left. Qed.

Lemma with_open_read_ok p w b t :
  files w !! p = Some b -> decode_text b = Some t ->
  with_open p ReadText (fun f => read f) w =
    (Return t,
     World (files w) (stdout w) (open_files w)
       (io_log w ++ [EvOpen p ReadText; EvRead p; EvClose p])).
Proof.
  intros Hf Hd. unfold with_open, open. rewrite Hf.
  unfold read. world_simpl. rewrite is_open_head. world_simpl.
  rewrite Hf, Hd. unfold close. world_simpl.
  by rewrite remove_first_head.
Qed.

Lemma with_open_read_undecodable p w b :
  files w !! p = Some b -> decode_text b = None ->
  with_open p ReadText (fun f => read f) w =
    (Raise UnicodeDecodeError,
     World (files w) (stdout w) (open_files w)
       (io_log w ++ [EvOpen p ReadText; EvRead p; EvClose p])).
Proof.
  intros Hf Hd. unfold with_open, open. rewrite Hf.
  unfold read. world_simpl. rewrite is_open_head. world_simpl.
  rewrite Hf, Hd. unfold close. world_simpl.
  by rewrite remove_first_head.
Qed.

Lemma with_open_write_run p s w :
  with_open p WriteText (fun f => write f s) w =
    (Return tt,
     World (<[p := s]> (files w)) (stdout w) (open_files w)
       (io_log w ++ [EvOpen p WriteText; EvWrite p; EvClose p])).
Proof.
  unfold with_open, open, write. world_simpl. rewrite is_open_head.
  world_simpl. unfold close. world_simpl.
  rewrite remove_first_head, lookup_insert_eq, insert_insert_eq.
  reflexivity.
Qed.

(** Whatever the block does, the file object it was given is closed when the
    block is left. *)
Lemma with_open_releases {A} p m (body : handle -> M A) w :
  (forall f w1, open_files (snd (body f w1)) = open_files w1) ->
  open_files (snd (with_open p m body w)) = open_files w.
Proof.
  intros Hbody. unfold with_open, open.
  destruct m.
  - destruct (files w !! p); [|reflexivity].
    match goal with |- context [body ?f ?w1] =>
      specialize (Hbody f w1); destruct (body f w1) as [r w2] end.
    unfold close. revert Hbody. world_simpl. intros ->.
    apply remove_first_head.
  - match goal with |- context [body ?f ?w1] =>
      specialize (Hbody f w1); destruct (body f w1) as [r w2] end.
    unfold close. revert Hbody. world_simpl. intros ->.
    apply remove_first_head.
Qed.

(** ** Running the four functions

    Each function is determined by what the source path holds. *)

Lemma source_of_insert_ne p v fs :
  p <> report_md -> source_of (<[p := v]> fs) = source_of fs.
Proof. intros Hne. unfold source_of. by rewrite lookup_insert_ne. Qed.

Lemma path_exists_present p w b :
  files w !! p = Some b -> path_exists p w = (Return true, w).
Proof. intros Hf. unfold path_exists. by rewrite Hf. Qed.

Lemma path_exists_absent p w :
  files w !! p = None -> path_exists p w = (Return false, w).
Proof. intros Hf. unfold path_exists. by rewrite Hf. Qed.

Lemma load_then_run {A} (k : text -> M A) (absent : M A) w :
  load_then k absent w =
    match source_of (files w) with
    | Absent => absent w
    | Undecodable =>
        (Raise UnicodeDecodeError,
         World (files w) (stdout w) (open_files w) (io_log w ++ load_events))
    | Readable t =>
        k t (World (files w) (stdout w) (open_files w) (io_log w ++ load_events))
    end.
Proof.
  unfold load_then, source_of, bind.
  destruct (files w !! report_md) as [b|] eqn:Hf.
  - rewrite (path_exists_present _ _ _ Hf). cbn [negb].
    destruct (decode_text b) as [t|] eqn:Hd.
    + by rewrite (with_open_read_ok _ _ _ _ Hf Hd).
    + by rewrite (with_open_read_undecodable _ _ _ Hf Hd).
  - by rewrite (path_exists_absent _ _ Hf).
Qed.

Section Runs.

Variable markdown : text -> list string -> text.
Variable wkhtmltopdf : text -> pdf_options -> render_result.

Lemma convert_markdown_to_html_run w :
  convert_markdown_to_html markdown w =
    match source_of (files w) with
    | Absent => (Return false, add_stdout not_found_message w)
    | Undecodable =>
        (Raise UnicodeDecodeError,
         World (files w) (stdout w) (open_files w) (io_log w ++ load_events))
    | Readable t =>
        (Return true,
         World
           (<[report_html :=
                html_document_standard (markdown t extensions_in_use)]> (files w))
           (stdout w ++
              ["✅ HTML report generated: IB_CS_HL_Criterion_C_Report.html"])
           (open_files w)
           (io_log w ++ load_events ++ store_events report_html))
    end.
Proof.
  change (convert_markdown_to_html markdown) with
    (load_then
       (fun t =>
          with_open report_html WriteText
            (fun f => write f (html_document_standard (markdown t extensions_in_use))) ;;
          print "✅ HTML report generated: IB_CS_HL_Criterion_C_Report.html" ;;
          ret true)
       (print not_found_message ;; ret false)).
  rewrite load_then_run. destruct (source_of (files w)); try reflexivity.
  unfold bind. rewrite with_open_write_run. unfold print, ret.
  world_simpl. reflexivity.
Qed.

Lemma create_simple_html_run w :
  create_simple_html markdown w =
    match source_of (files w) with
    | Absent => (Return false, add_stdout not_found_message w)
    | Undecodable =>
        (Raise UnicodeDecodeError,
         World (files w) (stdout w) (open_files w) (io_log w ++ load_events))
    | Readable t =>
        (Return true,
         World
           (<[report_print_html :=
                html_document_print (markdown t extensions_in_use)]> (files w))
           (stdout w ++
              ["✅ Print-optimized HTML report generated: IB_CS_HL_Criterion_C_Report_Print.html"])
           (open_files w)
           (io_log w ++ load_events ++ store_events report_print_html))
    end.
Proof.
  change (create_simple_html markdown) with
    (load_then
       (fun t =>
          with_open report_print_html WriteText
            (fun f => write f (html_document_print (markdown t extensions_in_use))) ;;
          print "✅ Print-optimized HTML report generated: IB_CS_HL_Criterion_C_Report_Print.html" ;;
          ret true)
       (print not_found_message ;; ret false)).
  rewrite load_then_run. destruct (source_of (files w)); try reflexivity.
  unfold bind. rewrite with_open_write_run. unfold print, ret.
  world_simpl. reflexivity.
Qed.

Lemma create_simplified_pdf_run w :
  create_simplified_pdf markdown w =
    match source_of (files w) with
    | Absent => (Return false, add_stdout not_found_message w)
    | Undecodable =>
        (Raise UnicodeDecodeError,
         World (files w) (stdout w) (open_files w) (io_log w ++ load_events))
    | Readable t =>
        (Return true,
         World
           (<[report_html :=
                html_document_simplified (markdown t extensions_in_use)]> (files w))
           (stdout w ++
              ["✅ HTML report generated: IB_CS_HL_Criterion_C_Report.html";
               "   You can open this file in a web browser and print to PDF"])
           (open_files w)
           (io_log w ++ load_events ++ store_events report_html))
    end.
Proof.
  change (create_simplified_pdf markdown) with
    (load_then
       (fun t =>
          with_open report_html WriteText
            (fun f => write f (html_document_simplified (markdown t extensions_in_use))) ;;
          print "✅ HTML report generated: IB_CS_HL_Criterion_C_Report.html" ;;
          print "   You can open this file in a web browser and print to PDF" ;;
          ret true)
       (print not_found_message ;; ret false)).
  rewrite load_then_run. destruct (source_of (files w)); try reflexivity.
  unfold bind. rewrite with_open_write_run. unfold print, ret.
  world_simpl. reflexivity.
Qed.

End Runs.

Lemma source_of_after_failed_render leftover fs :
  source_of (after_failed_render leftover fs) = source_of fs.
Proof. destruct leftover; [by apply source_of_insert_ne | done]. Qed.

Section MainRuns.

Variable markdown : text -> list string -> text.
Variable wkhtmltopdf : text -> pdf_options -> render_result.

Lemma convert_markdown_to_pdf_run w :
  convert_markdown_to_pdf markdown wkhtmltopdf w =
    match source_of (files w) with
    | Absent => (Return false, add_stdout not_found_message w)
    | Undecodable =>
        (Raise UnicodeDecodeError,
         World (files w) (stdout w) (open_files w) (io_log w ++ load_events))
    | Readable t =>
        match wkhtmltopdf (html_document_pdf (markdown t extensions_in_use))
                pdf_options_in_use with
        | Rendered pdf =>
            (Return true,
             World (<[report_pdf := pdf]> (files w))
               (stdout w ++ [pdf_generated_message])
               (open_files w)
               (io_log w ++ load_events ++ [EvRender report_pdf]))
        | RenderFailed msg leftover =>
            (Return false,
             World (after_failed_render leftover (files w))
               (stdout w ++ renderer_failure_messages msg)
               (open_files w)
               (io_log w ++ load_events ++ failed_render_events leftover))
        end
    end.
Proof.
  change (convert_markdown_to_pdf markdown wkhtmltopdf) with
    (load_then
       (fun t =>
          try_except
            (pdfkit_from_string wkhtmltopdf
               (html_document_pdf (markdown t extensions_in_use))
               report_pdf pdf_options_in_use ;;
             print pdf_generated_message ;;
             ret true)
            (fun e =>
               print ("❌ Error generating PDF: " +:+ str_of_exn e) ;;
               print (nl +:+ "Note: You may need to install wkhtmltopdf:") ;;
               print "  - macOS: brew install wkhtmltopdf" ;;
               print "  - Ubuntu: sudo apt-get install wkhtmltopdf" ;;
               print "  - Windows: Download from https://wkhtmltopdf.org/downloads.html" ;;
               ret false))
       (print not_found_message ;; ret false)).
  rewrite load_then_run. destruct (source_of (files w)); try reflexivity.
  unfold try_except, pdfkit_from_string, bind at 1.
  destruct (wkhtmltopdf _ _) as [pdf|msg [partial|]];
    world_simpl; run_prints; rewrite ?app_nil_r; reflexivity.
Qed.

Lemma generate_pdf_report_main_run w :
  generate_pdf_report_main markdown wkhtmltopdf w =
    match source_of (files w) with
    | Absent =>
        (Return tt,
         World (files w)
           (stdout w ++
              [generating_message; not_found_message; falling_back_message;
               not_found_message] ++ html_created_messages ++ [complete_message])
           (open_files w) (io_log w))
    | Undecodable =>
        (Raise UnicodeDecodeError,
         World (files w) (stdout w ++ [generating_message]) (open_files w)
           (io_log w ++ load_events))
    | Readable t =>
        match wkhtmltopdf (html_document_pdf (markdown t extensions_in_use))
                pdf_options_in_use with
        | Rendered pdf =>
            (Return tt,
             World (<[report_pdf := pdf]> (files w))
               (stdout w ++
                  [generating_message; pdf_generated_message] ++
                  pdf_converted_messages ++ [complete_message])
               (open_files w)
               (io_log w ++ load_events ++ [EvRender report_pdf]))
        | RenderFailed msg leftover =>
            (Return tt,
             World
               (<[report_html :=
                    html_document_simplified (markdown t extensions_in_use)]>
                  (after_failed_render leftover (files w)))
               (stdout w ++
                  [generating_message] ++ renderer_failure_messages msg ++
                  [falling_back_message] ++ html_generated_messages ++
                  html_created_messages ++ [complete_message])
               (open_files w)
               (io_log w ++ load_events ++ failed_render_events leftover ++
                  load_events ++ store_events report_html))
        end
    end.
Proof.
  unfold generate_pdf_report_main. rewrite bind_print.
  unfold bind at 1. rewrite convert_markdown_to_pdf_run. cbn [files].
  destruct (source_of (files w)) as [| |t] eqn:Hs.
  - unfold add_stdout. cbn [files stdout open_files io_log].
    unfold bind at 1. rewrite bind_print. unfold bind at 1.
    rewrite create_simplified_pdf_run. cbn [files]. rewrite Hs.
    unfold add_stdout. cbn [files stdout open_files io_log].
    run_prints. reflexivity.
  - reflexivity.
  - destruct (wkhtmltopdf _ _) as [pdf|msg leftover].
    + unfold bind at 1. run_prints. reflexivity.
    + unfold bind at 1. rewrite bind_print. unfold bind at 1.
      rewrite create_simplified_pdf_run. cbn [files].
      rewrite source_of_after_failed_render, Hs.
      run_prints. reflexivity.
Qed.

Lemma simple_pdf_generator_main_run w :
  simple_pdf_generator_main markdown w =
    match source_of (files w) with
    | Absent =>
        (Return tt,
         World (files w)
           (stdout w ++
              [generating_message; not_found_message; not_found_message] ++
              reports_generated_messages ++ [complete_message])
           (open_files w) (io_log w))
    | Undecodable =>
        (Raise UnicodeDecodeError,
         World (files w) (stdout w ++ [generating_message]) (open_files w)
           (io_log w ++ load_events))
    | Readable t =>
        (Return tt,
         World
           (<[report_print_html :=
                html_document_print (markdown t extensions_in_use)]>
              (<[report_html :=
                   html_document_standard (markdown t extensions_in_use)]>
                 (files w)))
           (stdout w ++
              [generating_message;
               "✅ HTML report generated: IB_CS_HL_Criterion_C_Report.html";
               "✅ Standard HTML report created!";
               "✅ Print-optimized HTML report generated: IB_CS_HL_Criterion_C_Report_Print.html";
               "✅ Print-optimized HTML report created!"] ++
              reports_generated_messages ++ [complete_message])
           (open_files w)
           (io_log w ++ load_events ++ store_events report_html ++
              load_events ++ store_events report_print_html))
    end.
Proof.
  unfold simple_pdf_generator_main. rewrite bind_print.
  unfold bind at 1. rewrite convert_markdown_to_html_run. cbn [files].
  destruct (source_of (files w)) as [| |t] eqn:Hs.
  - rewrite bind_ret. unfold bind at 1. rewrite create_simple_html_run.
    unfold add_stdout. cbn [files stdout open_files io_log]. rewrite Hs.
    run_prints. reflexivity.
  - reflexivity.
  - rewrite bind_print. unfold bind at 1. rewrite create_simple_html_run.
    cbn [files stdout open_files io_log].
    rewrite source_of_insert_ne, Hs by done.
    run_prints. reflexivity.
Qed.

End MainRuns.

(** ** The scripts in an environment that can fail *)

(** With a transform that returns, a standard output and a disk that take
    everything, they are the scripts of the first embedding. *)
Lemma fallible_in_a_kind_environment
    (markdown : text -> list string -> text)
    (wkhtmltopdf : text -> pdf_options -> render_result) (w : world) :
  Fallible.convert_markdown_to_pdf (returning markdown) wkhtmltopdf
    open_stdout every_file_opens w =
    convert_markdown_to_pdf markdown wkhtmltopdf w /\
  Fallible.create_simplified_pdf (returning markdown)
    open_stdout every_file_opens roomy_disk w =
    create_simplified_pdf markdown w /\
  Fallible.convert_markdown_to_html (returning markdown)
    open_stdout every_file_opens roomy_disk w =
    convert_markdown_to_html markdown w /\
  Fallible.create_simple_html (returning markdown)
    open_stdout every_file_opens roomy_disk w =
    create_simple_html markdown w /\
  Fallible.generate_pdf_report_main (returning markdown) wkhtmltopdf
    open_stdout every_file_opens roomy_disk w =
    generate_pdf_report_main markdown wkhtmltopdf w /\
  Fallible.simple_pdf_generator_main (returning markdown)
    open_stdout every_file_opens roomy_disk w =
    simple_pdf_generator_main markdown w.
Proof. repeat split. Qed.

(** The [with] block over an [open] that may raise. *)
Lemma fallible_with_open {A} open_refuses p m (body : handle -> M A) w :
  Fallible.with_open open_refuses p m body w =
    match open_refuses p m with
    | None => with_open p m body w
    | Some e => (Raise e, w)
    end.
Proof.
  unfold Fallible.with_open, Fallible.open, with_open.
  by destruct (open_refuses p m).
Qed.

(** *** File objects are never left open *)

Lemma keeps_ret {A} (a : A) : keeps_open_files (ret a).
Proof. by intros w. Qed.

Lemma keeps_bind {A B} (m : M A) (k : A -> M B) :
  keeps_open_files m -> (forall a, keeps_open_files (k a)) ->
  keeps_open_files (bind m k).
Proof.
  intros Hm Hk w. unfold bind. specialize (Hm w).
  destruct (m w) as [[a|e] w1]; cbn [snd] in *; [|done].
  by rewrite (Hk a w1).
Qed.

Lemma keeps_try_except {A} (body : M A) (handler : exn -> M A) :
  keeps_open_files body -> (forall e, keeps_open_files (handler e)) ->
  keeps_open_files (try_except body handler).
Proof.
  intros Hb Hh w. unfold try_except. specialize (Hb w).
  destruct (body w) as [[a|e] w1]; cbn [snd] in *; [done|].
  by rewrite (Hh e w1).
Qed.

Lemma keeps_if {A} (c : bool) (m1 m2 : M A) :
  keeps_open_files m1 -> keeps_open_files m2 ->
  keeps_open_files (if c then m1 else m2).
Proof. by destruct c. Qed.

Lemma keeps_with_open {A} p m (body : handle -> M A) :
  (forall f, keeps_open_files (body f)) ->
  keeps_open_files (with_open p m body).
Proof. intros Hbody w. apply with_open_releases. intros f w1. apply Hbody. Qed.

Lemma keeps_path_exists p : keeps_open_files (path_exists p).
Proof. by intros w. Qed.

Lemma keeps_read f : keeps_open_files (read f).
Proof.
  intros w. unfold read. destruct (is_open f w); [|done].
  destruct (h_mode f); [|done].
  destruct (files w !! h_path f) as [b|]; [|done].
  by destruct (decode_text b).
Qed.

Lemma keeps_write f s : keeps_open_files (write f s).
Proof.
  intros w. unfold write. destruct (is_open f w); [|done].
  by destruct (h_mode f).
Qed.

Lemma keeps_pdfkit_from_string wkhtmltopdf input p options :
  keeps_open_files (pdfkit_from_string wkhtmltopdf input p options).
Proof.
  intros w. unfold pdfkit_from_string.
  by destruct (wkhtmltopdf input options) as [pdf|msg [partial|]].
Qed.

Section FallibleInvariants.

Variable markdown : text -> list string -> outcome text.
Variable wkhtmltopdf : text -> pdf_options -> render_result.
Variable stdout_refuses : string -> option exn.
Variable open_refuses : string -> mode -> option exn.
Variable disk_refuses : string -> bytes -> option (exn * bytes).

Lemma keeps_fallible_with_open {A} p m (body : handle -> M A) :
  (forall f, keeps_open_files (body f)) ->
  keeps_open_files (Fallible.with_open open_refuses p m body).
Proof.
  intros Hbody w. rewrite fallible_with_open.
  destruct (open_refuses p m); [done|]. by apply keeps_with_open.
Qed.

Lemma keeps_fallible_print s :
  keeps_open_files (Fallible.print stdout_refuses s).
Proof. intros w. unfold Fallible.print. by destruct (stdout_refuses s). Qed.

Lemma keeps_fallible_write f s :
  keeps_open_files (Fallible.write disk_refuses f s).
Proof.
  intros w. unfold Fallible.write.
  destruct (disk_refuses _ _) as [[e reached]|]; [|apply keeps_write].
  pose proof (keeps_write f reached w) as Hw.
  by destruct (write f reached w) as [[[]|e'] w'].
Qed.

Lemma keeps_markdown_markdown source extensions :
  keeps_open_files (Fallible.markdown_markdown markdown source extensions).
Proof. by intros w. Qed.

Lemma only_prints_ret {A} (a : A) : only_prints (ret a).
Proof. by intros w. Qed.

Lemma only_prints_print s : only_prints (Fallible.print stdout_refuses s).
Proof. intros w. unfold Fallible.print. by destruct (stdout_refuses s). Qed.

Lemma only_prints_bind {A B} (m : M A) (k : A -> M B) :
  only_prints m -> (forall a, only_prints (k a)) -> only_prints (bind m k).
Proof.
  intros Hm Hk w. unfold bind. specialize (Hm w).
  destruct (m w) as [[a|e] w1]; cbn [snd] in *; [|done].
  destruct (Hk a w1) as (-> & -> & ->). done.
Qed.

End FallibleInvariants.

Create HintDb handles.
#[export] Hint Resolve keeps_ret keeps_if keeps_path_exists keeps_read
  keeps_write keeps_pdfkit_from_string keeps_fallible_print
  keeps_fallible_write keeps_markdown_markdown : handles.

(** Walks through a script, one statement at a time. *)
Ltac keeps_handles :=
  cbv zeta;
  repeat first
    [ solve [auto with handles]
    | apply keeps_fallible_with_open; intros ?
    | apply keeps_with_open; intros ?
    | apply keeps_try_except; [|intros ?]
    | apply keeps_if
    | apply keeps_bind; [|intros ?] ].

Ltac prints_only :=
  repeat first
    [ apply only_prints_bind; [|intros ?]
    | apply only_prints_print
    | apply only_prints_ret ].

Section FallibleHandles.

Variable markdown : text -> list string -> outcome text.
Variable wkhtmltopdf : text -> pdf_options -> render_result.
Variable stdout_refuses : string -> option exn.
Variable open_refuses : string -> mode -> option exn.
Variable disk_refuses : string -> bytes -> option (exn * bytes).

Lemma convert_markdown_to_pdf_keeps_open_files :
  keeps_open_files
    (Fallible.convert_markdown_to_pdf markdown wkhtmltopdf
       stdout_refuses open_refuses).
Proof. unfold Fallible.convert_markdown_to_pdf. keeps_handles. Qed.

Lemma conversion_keeps_open_files v :
  keeps_open_files
    (Fallible.conversion markdown stdout_refuses open_refuses disk_refuses v).
Proof.
  destruct v; unfold Fallible.conversion, Fallible.convert_markdown_to_html,
    Fallible.create_simple_html, Fallible.create_simplified_pdf; keeps_handles.
Qed.

Lemma generate_pdf_report_main_keeps_open_files :
  keeps_open_files
    (Fallible.generate_pdf_report_main markdown wkhtmltopdf
       stdout_refuses open_refuses disk_refuses).
Proof. unfold Fallible.generate_pdf_report_main. keeps_handles. Qed.

Lemma simple_pdf_generator_main_keeps_open_files :
  keeps_open_files
    (Fallible.simple_pdf_generator_main markdown
       stdout_refuses open_refuses disk_refuses).
Proof. unfold Fallible.simple_pdf_generator_main. keeps_handles. Qed.

End FallibleHandles.

(** *** Running them *)



Lemma fallible_print_refused stdout_refuses s e w :
  stdout_refuses s = Some e ->
  Fallible.print stdout_refuses s w = (Raise e, w).
Proof. intros Hs. unfold Fallible.print. by rewrite Hs. Qed.


(** The write block of a page: the file does not open, or the disk cuts the
    write short, or the page is written. *)
Lemma fallible_store_run open_refuses disk_refuses p s w :
  Fallible.with_open open_refuses p WriteText
    (fun f => Fallible.write disk_refuses f s) w =
    match open_refuses p WriteText with
    | Some e => (Raise e, w)
    | None =>
        match disk_refuses p s with
        | Some (e, reached) =>
            (Raise e,
             World (<[p := reached]> (files w)) (stdout w) (open_files w)
               (io_log w ++ store_events p))
        | None =>
            (Return tt,
             World (<[p := s]> (files w)) (stdout w) (open_files w)
               (io_log w ++ store_events p))
        end
    end.
Proof.
  rewrite fallible_with_open. destruct (open_refuses p WriteText); [done|].
  destruct (disk_refuses p s) as [[e reached]|] eqn:Hd.
  - unfold with_open, open, Fallible.write. cbn [h_path]. unfold encode_text.
    rewrite Hd. unfold write. world_simpl. rewrite is_open_head.
    world_simpl. unfold close. world_simpl.
    by rewrite remove_first_head, lookup_insert_eq, insert_insert_eq.
  - rewrite <- with_open_write_run.
    unfold with_open, open, Fallible.write. cbn [h_path]. unfold encode_text.
    by rewrite Hd.
Qed.

(** The common opening: no report, a report that does not open, one that
    does not decode, or its text. *)
Lemma fallible_load_then_run {A} open_refuses (k : text -> M A) (absent : M A) w :
  fallible_load_then open_refuses k absent w =
    match source_of (files w), open_refuses report_md ReadText with
    | Absent, _ => absent w
    | _, Some e => (Raise e, w)
    | Undecodable, None => (Raise UnicodeDecodeError, loaded w)
    | Readable t, None => k t (loaded w)
    end.
Proof.
  unfold fallible_load_then, source_of, bind, loaded.
  destruct (files w !! report_md) as [b|] eqn:Hf.
  - rewrite (path_exists_present _ _ _ Hf). cbn [negb].
    rewrite fallible_with_open.
    destruct (decode_text b) as [t|] eqn:Hd;
      destruct (open_refuses _ _); try done.
    + by rewrite (with_open_read_ok _ _ _ _ Hf Hd).
    + by rewrite (with_open_read_undecodable _ _ _ Hf Hd).
  - by rewrite (path_exists_absent _ _ Hf).
Qed.

Section FallibleSteps.

Variable markdown : text -> list string -> outcome text.
Variable wkhtmltopdf : text -> pdf_options -> render_result.
Variable stdout_refuses : string -> option exn.
Variable open_refuses : string -> mode -> option exn.
Variable disk_refuses : string -> bytes -> option (exn * bytes).

(** The three functions that write a page, as one. *)
Lemma fallible_conversion_steps v :
  Fallible.conversion markdown stdout_refuses open_refuses disk_refuses v =
    fallible_load_then open_refuses
      (fun t =>
         html <- Fallible.markdown_markdown markdown t extensions_in_use ;;
         Fallible.with_open open_refuses (output_path v) WriteText
           (fun f => Fallible.write disk_refuses f (style_template v html)) ;;
         announce_written stdout_refuses v)
      (Fallible.print stdout_refuses not_found_message ;; ret false).
Proof. by destruct v. Qed.


(** What a conversion does, up to the lines it prints at its end. *)
Lemma fallible_conversion_outcome v w :
  Fallible.conversion markdown stdout_refuses open_refuses disk_refuses v w =
    match source_of (files w), open_refuses report_md ReadText with
    | Absent, _ =>
        (Fallible.print stdout_refuses not_found_message ;; ret false) w
    | _, Some e => (Raise e, w)
    | Undecodable, None => (Raise UnicodeDecodeError, loaded w)
    | Readable t, None =>
        match markdown t extensions_in_use with
        | Raise e => (Raise e, loaded w)
        | Return body =>
            match open_refuses (output_path v) WriteText with
            | Some e => (Raise e, loaded w)
            | None =>
                match disk_refuses (output_path v) (style_template v body) with
                | Some (e, reached) =>
                    (Raise e,
                     World (<[output_path v := reached]> (files w)) (stdout w)
                       (open_files w)
                       (io_log w ++ load_events ++ store_events (output_path v)))
                | None =>
                    announce_written stdout_refuses v
                      (World (<[output_path v := style_template v body]> (files w))
                         (stdout w) (open_files w)
                         (io_log w ++ load_events ++ store_events (output_path v)))
                end
            end
        end
    end.
Proof.
  rewrite fallible_conversion_steps, fallible_load_then_run.
  destruct (source_of (files w)) as [| |t]; try done.
  destruct (open_refuses report_md ReadText); [done|].
  unfold bind at 1, Fallible.markdown_markdown.
  destruct (markdown t _) as [body|e]; [|done].
  unfold bind at 1. rewrite fallible_store_run.
  destruct (open_refuses (output_path v) WriteText); [done|].
  destruct (disk_refuses _ _) as [[e reached]|];
    unfold loaded; cbn [files stdout open_files io_log];
    by rewrite <- app_assoc.
Qed.


End FallibleSteps.

(** *** The lines a function prints at its end *)


Lemma announce_written_only_prints stdout_refuses v :
  only_prints (announce_written stdout_refuses v).
Proof. destruct v; unfold announce_written; prints_only. Qed.





Lemma only_prints_shape {A} (m : M A) :
  only_prints m ->
  forall w, exists r printed,
    m w = (r, World (files w) printed (open_files w) (io_log w)).
Proof.
  intros Hm w. destruct (Hm w) as (Hf & Ho & Hl).
  destruct (m w) as [r [f printed o l]]. cbn in *. subst.
  by exists r, printed.
Qed.


Section FallibleRuns.

Variable markdown : text -> list string -> outcome text.
Variable wkhtmltopdf : text -> pdf_options -> render_result.
Variable stdout_refuses : string -> option exn.
Variable open_refuses : string -> mode -> option exn.
Variable disk_refuses : string -> bytes -> option (exn * bytes).

Hypothesis stdout_takes_every_line : forall s, stdout_refuses s = None.
Hypothesis every_file_opens_here : forall p m, open_refuses p m = None.







End FallibleRuns.

(** ** Facts about the source path *)

Lemma source_of_absent fs : fs !! report_md = None -> source_of fs = Absent.
Proof. intros Hf. unfold source_of. by rewrite Hf. Qed.

Lemma string_app_assoc (a b c : string) : (a +:+ b) +:+ c = a +:+ b +:+ c.
Proof.
  induction a as [|x a IH]; [reflexivity|].
  change (String x ((a +:+ b) +:+ c) = String x (a +:+ b +:+ c)).
  by rewrite IH.
Qed.


(** ** The claims *)




(** C2. Whenever the report is absent, each of the four functions prints
    that it was not found and returns [False] at once, touching no file;
    and a run of either script ends with the files of the directory exactly
    as they were, without a single file operation: no HTML and no PDF is
    created. *)
Theorem source_not_found_creates_nothing
    (markdown : text -> list string -> text)
    (wkhtmltopdf : text -> pdf_options -> render_result)
    (w : world) :
  files w !! report_md = None ->
  convert_markdown_to_pdf markdown wkhtmltopdf w =
    (Return false, add_stdout not_found_message w) /\
  create_simplified_pdf markdown w =
    (Return false, add_stdout not_found_message w) /\
  convert_markdown_to_html markdown w =
    (Return false, add_stdout not_found_message w) /\
  create_simple_html markdown w =
    (Return false, add_stdout not_found_message w) /\
  (let run := generate_pdf_report_main markdown wkhtmltopdf w in
   fst run = Return tt /\ files (snd run) = files w /\
   io_log (snd run) = io_log w /\
   exists before after : list string,
     stdout (snd run) = (stdout w ++ before ++ not_found_message :: after)%list) /\
  (let run := simple_pdf_generator_main markdown w in
   fst run = Return tt /\ files (snd run) = files w /\
   io_log (snd run) = io_log w /\
   exists before after : list string,
     stdout (snd run) = (stdout w ++ before ++ not_found_message :: after)%list).
Proof.
  intros Hf. apply source_of_absent in Hf.
  rewrite convert_markdown_to_pdf_run, create_simplified_pdf_run,
    convert_markdown_to_html_run, create_simple_html_run,
    generate_pdf_report_main_run, simple_pdf_generator_main_run, Hf.
  cbn [fst snd files stdout io_log].
  repeat split; eexists [generating_message], _; reflexivity.
Qed.

Lemma source_not_found_creates_nothing_witness :
  let w := initial_world fs_no_report in
  files w !! report_md = None /\
  create_simplified_pdf paragraph_markdown w =
    (Return false, add_stdout not_found_message w) /\
  files (snd (generate_pdf_report_main paragraph_markdown working_renderer w))
    = fs_no_report.
Proof.
  pose proof (source_not_found_creates_nothing paragraph_markdown
                working_renderer (initial_world fs_no_report)) as H.
  cbv zeta. split; [reflexivity|].
  destruct H as (_ & H2 & _ & _ & (_ & H5 & _) & _); [reflexivity|].
  split; [exact H2 | exact H5].
Defined.

(** ** The written page is a function of the source text *)

Lemma conversion_files markdown v w t :
  source_of (files w) = Readable t ->
  files (snd (conversion markdown v w)) =
    <[output_path v := renderHtml markdown t v]> (files w).
Proof.
  intros Hs. destruct v; unfold conversion;
    [ rewrite convert_markdown_to_html_run
    | rewrite create_simple_html_run
    | rewrite create_simplified_pdf_run ];
    rewrite Hs; reflexivity.
Qed.

(** C3. The page a conversion writes is [renderHtml] of the source text and
    the style variant, and of nothing else: two runs that read the same
    text, from whatever worlds they start (other files, earlier outputs,
    earlier prints), leave byte-identical HTML at the output path. *)
Theorem conversion_is_deterministic
    (markdown : text -> list string -> text)
    (v : style_variant) (w1 w2 : world) (t : text) :
  source_of (files w1) = Readable t ->
  source_of (files w2) = Readable t ->
  files (snd (conversion markdown v w1)) !! output_path v =
    Some (renderHtml markdown t v) /\
  files (snd (conversion markdown v w2)) !! output_path v =
    Some (renderHtml markdown t v) /\
  files (snd (conversion markdown v (snd (conversion markdown v w1))))
    !! output_path v = Some (renderHtml markdown t v).
Proof.
  intros H1 H2.
  assert (Hout : forall w, source_of (files w) = Readable t ->
            files (snd (conversion markdown v w)) !! output_path v =
              Some (renderHtml markdown t v)).
  { intros w Hw. rewrite (conversion_files _ _ _ _ Hw).
    apply lookup_insert_eq. }
  split; [by apply Hout|]. split; [by apply Hout|].
  apply Hout. rewrite (conversion_files _ _ _ _ H1).
  rewrite source_of_insert_ne; [done|]. by destruct v.
Qed.

Lemma conversion_is_deterministic_witness :
  let t := "# Title" +:+ nl +:+ nl +:+ "Text." +:+ nl in
  let w1 := initial_world fs_report in
  let w2 := initial_world fs_rerun in
  source_of (files w1) = Readable t /\
  source_of (files w2) = Readable t /\
  files (snd (conversion paragraph_markdown Standard w1)) !! report_html =
    files (snd (conversion paragraph_markdown Standard w2)) !! report_html.
Proof.
  cbv zeta.
  assert (H1 : source_of (files (initial_world fs_report)) =
               Readable ("# Title" +:+ nl +:+ nl +:+ "Text." +:+ nl))
    by (vm_compute; reflexivity).
  assert (H2 : source_of (files (initial_world fs_rerun)) =
               Readable ("# Title" +:+ nl +:+ nl +:+ "Text." +:+ nl))
    by (vm_compute; reflexivity).
  split; [exact H1|]. split; [exact H2|].
  destruct (conversion_is_deterministic paragraph_markdown Standard
              _ _ _ H1 H2) as (E1 & E2 & _).
  etransitivity; [exact E1 | symmetry; exact E2].
Defined.

(** ** The parts of the two pages of [simple_pdf_generator.py] *)

Lemma standard_before_parts :
  standard_before = page_open +:+ standard_style +:+ page_body_open.
Proof. vm_compute. reflexivity. Qed.

Lemma print_before_parts :
  print_before = page_open +:+ print_style +:+ page_body_open.
Proof. vm_compute. reflexivity. Qed.

Lemma html_document_standard_parts html :
  html_document_standard html =
    page_open +:+ standard_style +:+ page_body_open +:+ html +:+ page_close.
Proof.
  unfold html_document_standard. rewrite standard_before_parts.
  by rewrite !string_app_assoc.
Qed.

Lemma html_document_print_parts html :
  html_document_print html =
    page_open +:+ print_style +:+ page_body_open +:+ html +:+ page_close.
Proof.
  unfold html_document_print. rewrite print_before_parts.
  by rewrite !string_app_assoc.
Qed.

(** The style rules hold no closing tag: they are all of what stands inside
    the [<style>] element. *)
Lemma style_rules_fill_the_style_element :
  String.index 0 "</style>" standard_style = None /\
  String.index 0 "</style>" print_style = None.
Proof. vm_compute. by split. Qed.

(** C4. For every source text, the standard page and the print-optimized
    page that a run of [simple_pdf_generator.py] writes are the same text
    around the same transformed body, except for what stands between
    [<style>] and [</style>]: the style rules, which do differ and which do
    not depend on the source. *)
Theorem print_variant_differs_only_in_style
    (markdown : text -> list string -> text) (w : world) (t : text) :
  source_of (files w) = Readable t ->
  let run := simple_pdf_generator_main markdown w in
  let body := markdown t extensions_in_use in
  files (snd run) !! report_html =
    Some (page_open +:+ standard_style +:+ page_body_open +:+
          body +:+ page_close) /\
  files (snd run) !! report_print_html =
    Some (page_open +:+ print_style +:+ page_body_open +:+
          body +:+ page_close) /\
  standard_style <> print_style.
Proof.
  intros Hs run body. subst run body.
  rewrite simple_pdf_generator_main_run, Hs. cbn [snd files].
  split; [|split].
  - rewrite lookup_insert_ne by done. rewrite lookup_insert_eq.
    by rewrite html_document_standard_parts.
  - rewrite lookup_insert_eq. by rewrite html_document_print_parts.
  - intros Heq. apply (f_equal String.length) in Heq.
    vm_compute in Heq. discriminate.
Qed.

Lemma print_variant_differs_only_in_style_witness :
  let t := "# Title" +:+ nl +:+ nl +:+ "Text." +:+ nl in
  let run := simple_pdf_generator_main paragraph_markdown
               (initial_world fs_report) in
  source_of fs_report = Readable t /\
  files (snd run) !! report_html =
    Some (page_open +:+ standard_style +:+ page_body_open +:+
          paragraph_markdown t extensions_in_use +:+ page_close) /\
  files (snd run) !! report_print_html =
    Some (page_open +:+ print_style +:+ page_body_open +:+
          paragraph_markdown t extensions_in_use +:+ page_close).
Proof.
  cbv zeta.
  assert (Hs : source_of (files (initial_world fs_report)) =
               Readable ("# Title" +:+ nl +:+ nl +:+ "Text." +:+ nl))
    by (vm_compute; reflexivity).
  split; [exact Hs|].
  destruct (print_variant_differs_only_in_style paragraph_markdown
              (initial_world fs_report) _ Hs) as (E1 & E2 & _).
  split; [exact E1 | exact E2].
Defined.




(** C7. Each of the three functions that write a page does it in a block
    that gives the file object back however the function ends: after the
    call the file objects open are those open before it, whether it
    returned, found no report, could not open or decode it, or was stopped
    by an exception of the transform, of a [print], of the [open] or of the
    write itself.  When the report was read and transformed, the block opens
    the output path, writes once and closes.  If the disk takes the page, the
    path then holds exactly the new page, whatever it held before and
    whatever else was in the directory.  If the disk cuts the write short,
    the exception goes on to the caller after the file object was closed,
    and the path holds what reached the disk of the new page and nothing of
    what it held before.  If the output path does not open, the exception
    goes on to the caller and no file was changed. *)
Theorem output_file_is_released_and_overwritten
    (markdown : text -> list string -> outcome text)
    (stdout_refuses : string -> option exn)
    (open_refuses : string -> mode -> option exn)
    (disk_refuses : string -> bytes -> option (exn * bytes))
    (v : style_variant) :
  let conversion :=
    Fallible.conversion markdown stdout_refuses open_refuses disk_refuses v in
  (forall w, open_files (snd (conversion w)) = open_files w) /\
  (forall w t body,
     source_of (files w) = Readable t ->
     open_refuses report_md ReadText = None ->
     markdown t extensions_in_use = Return body ->
     let run := conversion w in
     match open_refuses (output_path v) WriteText with
     | Some e =>
         fst run = Raise e /\
         files (snd run) = files w /\
         io_log (snd run) = (io_log w ++ load_events)%list
     | None =>
         match disk_refuses (output_path v) (style_template v body) with
         | None =>
             files (snd run) =
               <[output_path v := style_template v body]> (files w) /\
             files (snd run) !! output_path v = Some (style_template v body) /\
             io_log (snd run) =
               (io_log w ++ load_events ++ store_events (output_path v))%list
         | Some (e, reached) =>
             fst run = Raise e /\
             files (snd run) = <[output_path v := reached]> (files w) /\
             io_log (snd run) =
               (io_log w ++ load_events ++ store_events (output_path v))%list
         end
     end).
Proof.
  cbv zeta. split; [apply conversion_keeps_open_files|].
  intros w t body Hs Hr Hm.
  rewrite fallible_conversion_outcome, Hs, Hr, Hm.
  destruct (open_refuses (output_path v) WriteText) as [e|]; [done|].
  destruct (disk_refuses _ _) as [[e reached]|]; [done|].
  destruct (only_prints_shape _
              (announce_written_only_prints stdout_refuses v)
              (World (<[output_path v := style_template v body]> (files w))
                 (stdout w) (open_files w)
                 (io_log w ++ load_events ++ store_events (output_path v))))
    as (r & printed & ->).
  cbn [snd files io_log]. split; [done|]. split; [|done].
  apply lookup_insert_eq.
Qed.

Lemma output_file_is_released_and_overwritten_witness :
  let t := "# Title" +:+ nl +:+ nl +:+ "Text." +:+ nl in
  let w := initial_world fs_rerun in
  let stopped :=
    Fallible.convert_markdown_to_html (returning paragraph_markdown)
      open_stdout every_file_opens full_disk w in
  source_of (files w) = Readable t /\
  files w !! report_html = Some "<html>old</html>" /\
  files (snd (Fallible.create_simplified_pdf (returning paragraph_markdown)
                ascii_stdout every_file_opens roomy_disk w)) !! report_html =
    Some (html_document_simplified (paragraph_markdown t extensions_in_use)) /\
  fst stopped =
    Raise (OtherException "OSError" "[Errno 28] No space left on device") /\
  files (snd stopped) !! report_html = Some "" /\
  open_files (snd stopped) = [] /\
  files (snd (Fallible.create_simple_html (returning paragraph_markdown)
                open_stdout read_only_directory roomy_disk w)) = files w.
Proof.
  cbv zeta.
  assert (Hs : source_of (files (initial_world fs_rerun)) =
               Readable ("# Title" +:+ nl +:+ nl +:+ "Text." +:+ nl))
    by (vm_compute; reflexivity).
  destruct (output_file_is_released_and_overwritten
              (returning paragraph_markdown) ascii_stdout every_file_opens
              roomy_disk Simplified)
    as [_ Hwritten].
  destruct (Hwritten _ _ _ Hs eq_refl eq_refl) as (_ & Hpage & _).
  destruct (output_file_is_released_and_overwritten
              (returning paragraph_markdown) open_stdout every_file_opens
              full_disk Standard)
    as [Hopen Hrefused].
  destruct (Hrefused _ _ _ Hs eq_refl eq_refl) as (Hraise & Hcut & _).
  destruct (output_file_is_released_and_overwritten
              (returning paragraph_markdown) open_stdout read_only_directory
              roomy_disk PrintOptimized)
    as [_ Hclosed].
  destruct (Hclosed _ _ _ Hs eq_refl eq_refl) as (_ & Hsame & _).
  split; [exact Hs|]. split; [reflexivity|]. split; [exact Hpage|].
  split; [exact Hraise|].
  split; [cbn [Fallible.conversion] in Hcut; rewrite Hcut; apply lookup_insert_eq|].
  split; [exact (Hopen (initial_world fs_rerun)) | exact Hsame].
Defined.

(** C8, as the code has it. Each of the four functions reads the report
    once per call when it exists and not at all when it does not; a run of
    [simple_pdf_generator.py] calls two of them and so reads a readable
    report twice, and a run of [generate_pdf_report.py] reads it a second
    time when the renderer fails.  Nothing ever writes to the report: after
    every function and every run the source path holds what it held, and
    the log has no write to it. *)
Theorem source_read_once_per_function_and_never_written
    (markdown : text -> list string -> text)
    (wkhtmltopdf : text -> pdf_options -> render_result)
    (fs : gmap string string) :
  let w := initial_world fs in
  let once := match source_of fs with Absent => 0 | _ => 1 end in
  let unchanged {A} (run : outcome A * world) :=
    files (snd run) !! report_md = fs !! report_md /\ source_writes run = 0 in
  (source_reads (convert_markdown_to_pdf markdown wkhtmltopdf w) = once /\
   source_reads (create_simplified_pdf markdown w) = once /\
   source_reads (convert_markdown_to_html markdown w) = once /\
   source_reads (create_simple_html markdown w) = once) /\
  source_reads (simple_pdf_generator_main markdown w) =
    match source_of fs with Absent => 0 | Undecodable => 1 | Readable _ => 2 end /\
  source_reads (generate_pdf_report_main markdown wkhtmltopdf w) =
    match source_of fs with
    | Absent => 0
    | Undecodable => 1
    | Readable t =>
        match wkhtmltopdf (html_document_pdf (markdown t extensions_in_use))
                pdf_options_in_use with
        | Rendered _ => 1
        | RenderFailed _ _ => 2
        end
    end /\
  unchanged (convert_markdown_to_pdf markdown wkhtmltopdf w) /\
  unchanged (create_simplified_pdf markdown w) /\
  unchanged (convert_markdown_to_html markdown w) /\
  unchanged (create_simple_html markdown w) /\
  unchanged (simple_pdf_generator_main markdown w) /\
  unchanged (generate_pdf_report_main markdown wkhtmltopdf w).
Proof.
  cbv zeta.
  rewrite convert_markdown_to_pdf_run, create_simplified_pdf_run,
    convert_markdown_to_html_run, create_simple_html_run,
    generate_pdf_report_main_run, simple_pdf_generator_main_run.
  cbn [initial_world files].
  destruct (source_of fs) as [| |t].
  - repeat split.
  - repeat split.
  - destruct (wkhtmltopdf _ _) as [pdf|msg [partial|]];
      cbn [snd files after_failed_render];
      rewrite ?lookup_insert_ne by done; repeat split.
Qed.

(** C8 as stated fails: one run of [simple_pdf_generator.py] on a directory
    that holds the report reads it twice. *)
Lemma report_read_twice_in_one_run :
  source_reads
    (simple_pdf_generator_main paragraph_markdown (initial_world fs_report)) = 2.
Proof. vm_compute. reflexivity. Qed.

(** C9. Whenever [convert_markdown_to_pdf] returns [False], the script body
    of [generate_pdf_report.py] ends normally with the three lines that
    announce the HTML report, followed by the closing line, as the last
    things printed; what [create_simplified_pdf] returned plays no part.  In
    particular, when the report is absent, [create_simplified_pdf] returns
    [False] and no file of the directory is created or changed, and the
    announcement is printed all the same. *)
Theorem html_report_announced_whatever_the_fallback_did
    (markdown : text -> list string -> text)
    (wkhtmltopdf : text -> pdf_options -> render_result)
    (w : world) :
  fst (convert_markdown_to_pdf markdown wkhtmltopdf w) = Return false ->
  let run := generate_pdf_report_main markdown wkhtmltopdf w in
  fst run = Return tt /\
  (exists before : list string,
     stdout (snd run) =
       (stdout w ++ before ++ html_created_messages ++ [complete_message])%list) /\
  (files w !! report_md = None ->
   fst (create_simplified_pdf markdown w) = Return false /\
   files (snd run) = files w /\
   files (snd run) !! report_html = files w !! report_html).
Proof.
  intros Hconv run. subst run. revert Hconv.
  rewrite convert_markdown_to_pdf_run, generate_pdf_report_main_run,
    create_simplified_pdf_run.
  destruct (source_of (files w)) as [| |t] eqn:Hs.
  - intros _. cbn [fst snd stdout files]. repeat split.
    eexists [_; _; _; _]. reflexivity.
  - discriminate.
  - destruct (wkhtmltopdf _ _) as [pdf|msg leftover]; [discriminate|].
    intros _. cbn [fst snd stdout files]. split; [done|]. split.
    + exists ([generating_message] ++ renderer_failure_messages msg ++
              [falling_back_message] ++ html_generated_messages)%list.
      reflexivity.
    + intros Hf. apply source_of_absent in Hf. congruence.
Qed.

Lemma html_report_announced_whatever_the_fallback_did_witness :
  let w := initial_world fs_no_report in
  let run := generate_pdf_report_main paragraph_markdown working_renderer w in
  fst (convert_markdown_to_pdf paragraph_markdown working_renderer w) =
    Return false /\
  fst run = Return tt /\
  (exists before : list string,
     stdout (snd run) =
       (stdout w ++ before ++ html_created_messages ++ [complete_message])%list) /\
  fst (create_simplified_pdf paragraph_markdown w) = Return false /\
  files (snd run) !! report_html = None.
Proof.
  cbv zeta.
  assert (Hc : fst (convert_markdown_to_pdf paragraph_markdown working_renderer
                      (initial_world fs_no_report)) = Return false)
    by reflexivity.
  destruct (html_report_announced_whatever_the_fallback_did
              paragraph_markdown working_renderer
              (initial_world fs_no_report) Hc) as (H1 & H2 & H3).
  destruct H3 as (H4 & _ & H5); [reflexivity|].
  split; [exact Hc|]. split; [exact H1|]. split; [exact H2|].
  split; [exact H4|]. rewrite H5. reflexivity.
Defined.

(** C10. Whatever the Markdown library computes, each of the four functions
    applies it to the source text with the same list of four extensions,
    [codehilite] among them, and puts the result between the fixed parts of
    its page: the three HTML files hold their page around that one body, and
    the renderer is handed the PDF page around it. *)
Theorem same_four_extensions_on_every_path
    (markdown : text -> list string -> text)
    (wkhtmltopdf : text -> pdf_options -> render_result)
    (w : world) (t : text) :
  source_of (files w) = Readable t ->
  let body :=
    markdown t
      [ "markdown.extensions.tables"; "markdown.extensions.fenced_code";
        "markdown.extensions.toc"; "markdown.extensions.codehilite" ] in
  files (snd (convert_markdown_to_html markdown w)) !! report_html =
    Some (standard_before +:+ body +:+ standard_after) /\
  files (snd (create_simple_html markdown w)) !! report_print_html =
    Some (print_before +:+ body +:+ print_after) /\
  files (snd (create_simplified_pdf markdown w)) !! report_html =
    Some (simplified_before +:+ body +:+ simplified_after) /\
  files (snd (convert_markdown_to_pdf markdown wkhtmltopdf w)) !! report_pdf =
    match wkhtmltopdf (pdf_before +:+ body +:+ pdf_after) pdf_options_in_use with
    | Rendered pdf => Some pdf
    | RenderFailed _ (Some partial) => Some partial
    | RenderFailed _ None => files w !! report_pdf
    end.
Proof.
  intros Hs body. subst body.
  rewrite convert_markdown_to_html_run, create_simple_html_run,
    create_simplified_pdf_run, convert_markdown_to_pdf_run, Hs.
  cbn [snd files]. rewrite !lookup_insert_eq.
  repeat split.
  change (pdf_before +:+ ?b +:+ pdf_after) with (html_document_pdf b).
  destruct (wkhtmltopdf _ _) as [pdf|msg [partial|]];
    cbn [snd files after_failed_render];
    [apply lookup_insert_eq | apply lookup_insert_eq | reflexivity].
Qed.

Lemma same_four_extensions_on_every_path_witness :
  let w := initial_world fs_report in
  let t := "# Title" +:+ nl +:+ nl +:+ "Text." +:+ nl in
  (* a transform that hands back the extensions it was called with *)
  let listing (source : text) (extensions : list string) : text :=
    String.concat "," extensions in
  source_of (files w) = Readable t /\
  files (snd (convert_markdown_to_html listing w)) !! report_html =
    Some (standard_before +:+
          "markdown.extensions.tables,markdown.extensions.fenced_code,markdown.extensions.toc,markdown.extensions.codehilite"
          +:+ standard_after) /\
  files (snd (convert_markdown_to_pdf listing working_renderer w)) !! report_pdf =
    Some ("%PDF-1.4" +:+ nl +:+ pdf_before +:+
          "markdown.extensions.tables,markdown.extensions.fenced_code,markdown.extensions.toc,markdown.extensions.codehilite"
          +:+ pdf_after).
Proof.
  cbv zeta.
  assert (Hs : source_of (files (initial_world fs_report)) =
               Readable ("# Title" +:+ nl +:+ nl +:+ "Text." +:+ nl))
    by (vm_compute; reflexivity).
  destruct (same_four_extensions_on_every_path
              (fun (_ : text) (extensions : list string) =>
                 String.concat "," extensions)
              working_renderer (initial_world fs_report) _ Hs)
    as (H1 & _ & _ & H4).
  split; [exact Hs|]. split; [exact H1|]. exact H4.
Defined.

(** * Further properties of the scripts *)

(** ** What a run may change *)

(** X1. When the report is readable and the renderer succeeds, a run of
    [generate_pdf_report.py] ends normally with the renderer's bytes at the
    PDF path, whatever was there; it reads the report once, writes no HTML
    (the HTML path keeps what it held, a page of an earlier run included)
    and prints the two success notices and no fallback notice. *)
Theorem pdf_written_and_no_fallback_when_renderer_succeeds
    (markdown : text -> list string -> text)
    (wkhtmltopdf : text -> pdf_options -> render_result)
    (fs : gmap string string) (t : text) (pdf : bytes) :
  source_of fs = Readable t ->
  wkhtmltopdf (html_document_pdf (markdown t extensions_in_use))
    pdf_options_in_use = Rendered pdf ->
  let run := generate_pdf_report_main markdown wkhtmltopdf (initial_world fs) in
  fst run = Return tt /\
  files (snd run) = <[report_pdf := pdf]> fs /\
  files (snd run) !! report_html = fs !! report_html /\
  writes_of report_html (io_log (snd run)) = 0 /\
  source_reads run = 1 /\
  stdout (snd run) =
    ([generating_message; pdf_generated_message] ++ pdf_converted_messages ++
     [complete_message])%list /\
  falling_back_message ∉ stdout (snd run).
Proof.
  intros Hs Hr run. subst run. rewrite generate_pdf_report_main_run.
  cbn [initial_world files]. rewrite Hs, Hr.
  cbn [fst snd files stdout io_log].
  split; [done|]. split; [done|]. split; [by rewrite lookup_insert_ne|].
  split; [done|]. split; [done|]. split; [done|].
  intros Hin. unfold pdf_converted_messages in Hin. cbn [app] in Hin.
  apply list_elem_of_In in Hin. cbn in Hin.
  repeat (destruct Hin as [Hin|Hin]; [by vm_compute in Hin|]). done.
Qed.

Lemma pdf_written_and_no_fallback_when_renderer_succeeds_witness :
  let t := "# Title" +:+ nl +:+ nl +:+ "Text." +:+ nl in
  let run := generate_pdf_report_main paragraph_markdown working_renderer
               (initial_world fs_rerun) in
  source_of fs_rerun = Readable t /\
  fst run = Return tt /\
  files (snd run) !! report_html = Some "<html>old</html>" /\
  source_reads run = 1.
Proof.
  cbv zeta.
  assert (Hs : source_of fs_rerun =
               Readable ("# Title" +:+ nl +:+ nl +:+ "Text." +:+ nl))
    by (vm_compute; reflexivity).
  destruct (pdf_written_and_no_fallback_when_renderer_succeeds
              paragraph_markdown working_renderer fs_rerun _ _ Hs eq_refl)
    as (H1 & _ & H3 & _ & H5 & _).
  split; [exact Hs|]. split; [exact H1|]. split; [|exact H5].
  rewrite H3. reflexivity.
Defined.

(** X2. A run changes no file but its own outputs, however it ends:
    [generate_pdf_report.py] leaves every path other than the PDF and the
    HTML path as it was, and [simple_pdf_generator.py] every path other than
    the two HTML paths.  So the first never touches the print page and the
    second never touches the PDF. *)
Theorem scripts_change_only_their_outputs
    (markdown : text -> list string -> text)
    (wkhtmltopdf : text -> pdf_options -> render_result)
    (w : world) (p : string) :
  (p <> report_pdf -> p <> report_html ->
   files (snd (generate_pdf_report_main markdown wkhtmltopdf w)) !! p =
     files w !! p) /\
  (p <> report_html -> p <> report_print_html ->
   files (snd (simple_pdf_generator_main markdown w)) !! p = files w !! p).
Proof.
  rewrite generate_pdf_report_main_run, simple_pdf_generator_main_run.
  split; intros H1 H2.
  - destruct (source_of (files w)); [done|done|].
    destruct (wkhtmltopdf _ _) as [pdf|msg [partial|]];
      cbn [snd files after_failed_render]; by rewrite ?lookup_insert_ne.
  - destruct (source_of (files w)); [done|done|].
    cbn [snd files]. by rewrite !lookup_insert_ne.
Qed.

Lemma scripts_change_only_their_outputs_witness :
  files (snd (generate_pdf_report_main paragraph_markdown missing_renderer
                (initial_world fs_rerun))) !! report_print_html = None /\
  files (snd (simple_pdf_generator_main paragraph_markdown
                (initial_world fs_rerun))) !! report_pdf = Some "%PDF-old".
Proof.
  destruct (scripts_change_only_their_outputs paragraph_markdown
              missing_renderer (initial_world fs_rerun) report_print_html)
    as [H1 _].
  destruct (scripts_change_only_their_outputs paragraph_markdown
              missing_renderer (initial_world fs_rerun) report_pdf)
    as [_ H2].
  split.
  - rewrite H1; [reflexivity | discriminate | discriminate].
  - rewrite H2; [reflexivity | discriminate | discriminate].
Defined.


(** ** What the returned boolean says *)



(** ** File objects *)

(** X4. No function and no script leaves a file object open, however it
    ends: by returning, because the report is missing, does not open or does
    not decode, because the renderer fails, or because the Markdown
    transform, a [print], an [open] or a write raises. *)
Theorem no_file_object_is_left_open
    (markdown : text -> list string -> outcome text)
    (wkhtmltopdf : text -> pdf_options -> render_result)
    (stdout_refuses : string -> option exn)
    (open_refuses : string -> mode -> option exn)
    (disk_refuses : string -> bytes -> option (exn * bytes))
    (w : world) :
  open_files
    (snd (Fallible.convert_markdown_to_pdf markdown wkhtmltopdf
            stdout_refuses open_refuses w)) = open_files w /\
  open_files
    (snd (Fallible.create_simplified_pdf markdown
            stdout_refuses open_refuses disk_refuses w)) = open_files w /\
  open_files
    (snd (Fallible.convert_markdown_to_html markdown
            stdout_refuses open_refuses disk_refuses w)) = open_files w /\
  open_files
    (snd (Fallible.create_simple_html markdown
            stdout_refuses open_refuses disk_refuses w)) = open_files w /\
  open_files
    (snd (Fallible.generate_pdf_report_main markdown wkhtmltopdf
            stdout_refuses open_refuses disk_refuses w)) = open_files w /\
  open_files
    (snd (Fallible.simple_pdf_generator_main markdown
            stdout_refuses open_refuses disk_refuses w)) = open_files w.
Proof.
  split; [apply convert_markdown_to_pdf_keeps_open_files|].
  split; [apply (conversion_keeps_open_files _ _ _ _ Simplified)|].
  split; [apply (conversion_keeps_open_files _ _ _ _ Standard)|].
  split; [apply (conversion_keeps_open_files _ _ _ _ PrintOptimized)|].
  split; [apply generate_pdf_report_main_keeps_open_files|].
  apply simple_pdf_generator_main_keeps_open_files.
Qed.

(** ** Running a script again *)

(** X8. When standard output, the files and the disk work and the transform
    returns, running [simple_pdf_generator.py] a second time changes nothing
    on disk: after two runs in a row the directory is as after the first
    one, whatever it held at the start (no report, a report that does not
    decode, pages of an earlier run). *)
Theorem second_run_of_simple_generator_changes_no_file
    (markdown : text -> list string -> text) (w : world) :
  files (snd (simple_pdf_generator_main markdown
                (snd (simple_pdf_generator_main markdown w)))) =
    files (snd (simple_pdf_generator_main markdown w)).
Proof.
  rewrite (simple_pdf_generator_main_run _ (snd _)).
  rewrite simple_pdf_generator_main_run.
  destruct (source_of (files w)) as [| |t] eqn:Hs; cbn [snd files].
  - by rewrite Hs.
  - by rewrite Hs.
  - rewrite !source_of_insert_ne, Hs by done. cbn [snd files].
    apply map_eq. intros p. rewrite !lookup_insert.
    repeat case_decide; congruence.
Qed.

(** ** What the scripts say and what they did *)

(** X5. [simple_pdf_generator.py] prints its closing lines whatever the two
    functions returned.  When the report is absent it prints the not-found
    line twice, neither of the two confirmations, and then that the reports
    were generated successfully with the names of both files, although it
    created and changed no file. *)
Theorem simple_generator_announces_files_it_did_not_write
    (markdown : text -> list string -> text) (w : world) :
  files w !! report_md = None ->
  let run := simple_pdf_generator_main markdown w in
  fst run = Return tt /\
  files (snd run) = files w /\
  stdout (snd run) =
    (stdout w ++
     [generating_message; not_found_message; not_found_message;
      nl +:+ "📄 Reports generated successfully!";
      "   Files created:";
      "   - IB_CS_HL_Criterion_C_Report.html (standard version)";
      "   - IB_CS_HL_Criterion_C_Report_Print.html (print-optimized)";
      nl +:+ "💡 To convert to PDF:";
      "   1. Open either HTML file in a web browser";
      "   2. Press Ctrl+P (or Cmd+P on Mac)";
      "   3. Select 'Save as PDF' as destination";
      "   4. Choose 'More settings' and set margins to 'Minimum'";
      "   5. Click 'Save'";
      complete_message])%list.
Proof.
  intros Hf run. subst run. apply source_of_absent in Hf.
  rewrite simple_pdf_generator_main_run, Hf. done.
Qed.

Lemma simple_generator_announces_files_it_did_not_write_witness :
  let run := simple_pdf_generator_main paragraph_markdown
               (initial_world fs_no_report) in
  fs_no_report !! report_md = None /\
  fst run = Return tt /\
  files (snd run) !! report_html = None /\
  files (snd run) !! report_print_html = None /\
  (nl +:+ "📄 Reports generated successfully!") ∈ stdout (snd run).
Proof.
  cbv zeta.
  destruct (simple_generator_announces_files_it_did_not_write
              paragraph_markdown (initial_world fs_no_report) eq_refl)
    as (H1 & H2 & H3).
  split; [reflexivity|]. split; [exact H1|].
  rewrite H2, H3. cbn [initial_world files stdout app].
  split; [reflexivity|]. split; [reflexivity|].
  do 3 apply list_elem_of_further. apply list_elem_of_here.
Defined.

(** X6. Unlike the closing lines, the two confirmations of
    [simple_pdf_generator.py] can be relied on: in the output of a run, the
    confirmation of a page is there exactly when the report was readable and
    the run left that page at its path. *)
Theorem confirmations_are_printed_only_for_pages_written
    (markdown : text -> list string -> text) (fs : gmap string string) :
  let run := simple_pdf_generator_main markdown (initial_world fs) in
  ("✅ Standard HTML report created!" ∈ stdout (snd run) <->
   exists t, source_of fs = Readable t /\
     files (snd run) !! report_html =
       Some (html_document_standard (markdown t extensions_in_use))) /\
  ("✅ Print-optimized HTML report created!" ∈ stdout (snd run) <->
   exists t, source_of fs = Readable t /\
     files (snd run) !! report_print_html =
       Some (html_document_print (markdown t extensions_in_use))).
Proof.
  cbv zeta. rewrite simple_pdf_generator_main_run. cbn [initial_world files].
  destruct (source_of fs) as [| |t]; cbn [snd files stdout app].
  - split; (split; [|by intros (t & Ht & _)]);
      intros Hin; apply list_elem_of_In in Hin; cbn in Hin;
      repeat (destruct Hin as [Hin|Hin]; [by vm_compute in Hin|]); done.
  - split; (split; [|by intros (t & Ht & _)]);
      intros Hin; apply list_elem_of_In in Hin; cbn in Hin;
      repeat (destruct Hin as [Hin|Hin]; [by vm_compute in Hin|]); done.
  - split; split.
    + intros _. exists t. split; [done|].
      rewrite lookup_insert_ne by done. apply lookup_insert_eq.
    + intros _. do 2 apply list_elem_of_further. apply list_elem_of_here.
    + intros _. exists t. split; [done|]. apply lookup_insert_eq.
    + intros _. do 4 apply list_elem_of_further. apply list_elem_of_here.
Qed.

(** ** Running the scripts one after the other *)

Lemma string_length_app (a b : string) :
  String.length (a +:+ b) = String.length a + String.length b.
Proof.
  induction a as [|x a IH]; [reflexivity|].
  change (S (String.length (a +:+ b)) = S (String.length a + String.length b)).
  by rewrite IH.
Qed.

Lemma simplified_page_is_not_the_standard_page html :
  html_document_simplified html <> html_document_standard html.
Proof.
  intros Heq. apply (f_equal String.length) in Heq. revert Heq.
  unfold html_document_simplified, html_document_standard.
  rewrite !string_length_app.
  assert (Hbefore : String.length standard_before =
                    4654 + String.length simplified_before)
    by (vm_compute; reflexivity).
  assert (Hafter : String.length standard_after =
                   String.length simplified_after) by reflexivity.
  rewrite Hbefore, Hafter. lia.
Qed.

(** X7. The two scripts share one HTML path, and the one that ran last owns
    it.  With a readable report and a renderer that fails: after
    [simple_pdf_generator.py] and then [generate_pdf_report.py], the path
    holds the simplified page of the fallback, no longer the standard page
    (the print page is still there); in the other order it holds the
    standard page.  The two pages are never the same text. *)
Theorem last_script_owns_the_html_path
    (markdown : text -> list string -> text)
    (wkhtmltopdf : text -> pdf_options -> render_result)
    (w : world) (t : text) (msg : string) (leftover : option bytes) :
  source_of (files w) = Readable t ->
  wkhtmltopdf (html_document_pdf (markdown t extensions_in_use))
    pdf_options_in_use = RenderFailed msg leftover ->
  let body := markdown t extensions_in_use in
  let simple_then_generate :=
    snd (generate_pdf_report_main markdown wkhtmltopdf
           (snd (simple_pdf_generator_main markdown w))) in
  let generate_then_simple :=
    snd (simple_pdf_generator_main markdown
           (snd (generate_pdf_report_main markdown wkhtmltopdf w))) in
  files simple_then_generate !! report_html =
    Some (html_document_simplified body) /\
  files simple_then_generate !! report_print_html =
    Some (html_document_print body) /\
  files generate_then_simple !! report_html =
    Some (html_document_standard body) /\
  html_document_simplified body <> html_document_standard body.
Proof.
  intros Hs Hr body first second. subst body first second.
  rewrite (generate_pdf_report_main_run _ _ (snd _)).
  rewrite (simple_pdf_generator_main_run _ (snd _)).
  rewrite generate_pdf_report_main_run, simple_pdf_generator_main_run.
  rewrite Hs, Hr. cbn [snd files].
  rewrite !source_of_insert_ne by done.
  rewrite ?source_of_after_failed_render, Hs, Hr. cbn [snd files].
  split; [apply lookup_insert_eq|]. split.
  - rewrite lookup_insert_ne by done.
    destruct leftover; cbn [after_failed_render];
      rewrite ?(lookup_insert_ne _ report_pdf) by done; apply lookup_insert_eq.
  - split; [|apply simplified_page_is_not_the_standard_page].
    rewrite lookup_insert_ne by done. rewrite lookup_insert_eq. done.
Qed.

Lemma last_script_owns_the_html_path_witness :
  let t := "# Title" +:+ nl +:+ nl +:+ "Text." +:+ nl in
  let w := initial_world fs_report in
  source_of (files w) = Readable t /\
  files (snd (generate_pdf_report_main paragraph_markdown missing_renderer
                (snd (simple_pdf_generator_main paragraph_markdown w))))
    !! report_html =
    Some (html_document_simplified (paragraph_markdown t extensions_in_use)).
Proof.
  cbv zeta.
  assert (Hs : source_of (files (initial_world fs_report)) =
               Readable ("# Title" +:+ nl +:+ nl +:+ "Text." +:+ nl))
    by (vm_compute; reflexivity).
  destruct (last_script_owns_the_html_path paragraph_markdown missing_renderer
              (initial_world fs_report) _ "No wkhtmltopdf executable found"
              None Hs eq_refl) as (H1 & _).
  split; [exact Hs | exact H1].
Defined.


(** ** Line endings of the report *)

Lemma in_range_below lo hi b :
  (0x80 <= lo)%N -> (b < 0x80)%N -> in_range lo hi b = false.
Proof.
  intros Hlo Hb. unfold in_range.
  apply andb_false_iff. left. apply N.leb_gt. lia.
Qed.

Lemma utf8_lead_ok b st : utf8_lead b = Some st -> state_ok st.
Proof.
  unfold utf8_lead.
  repeat (match goal with
          | |- context [if ?c then _ else _] => destruct c
          end);
    intros [= <-]; cbn; lia.
Qed.

(** The decoder accepts a file with Windows line endings exactly when it
    accepts the file without them. *)
Lemma utf8_scan_to_crlf s :
  forall st, state_ok st -> utf8_scan st (to_crlf s) = utf8_scan st s.
Proof.
  induction s as [|c rest IH]; intros st Hok; [reflexivity|].
  cbn [to_crlf]. destruct (Ascii.eqb c LF) eqn:Hc.
  - apply Ascii.eqb_eq in Hc. subst c. destruct st as [|lo hi more].
    + change (utf8_scan AtBoundary (to_crlf rest) = utf8_scan AtBoundary rest).
      by apply IH.
    + cbn [utf8_scan]. cbv zeta.
      rewrite (in_range_below lo hi (N_of_ascii CR)) by (done || by vm_compute).
      by rewrite (in_range_below lo hi (N_of_ascii LF)) by (done || by vm_compute).
  - cbn [utf8_scan]. cbv zeta. destruct st as [|lo hi more].
    + destruct (utf8_lead (N_of_ascii c)) as [st'|] eqn:Hlead; [|done].
      apply IH. by apply utf8_lead_ok in Hlead.
    + destruct (in_range lo hi (N_of_ascii c)); [|done].
      destruct more; apply IH; cbn; lia.
Qed.

(** Reading hands out the text with its line feeds alone, as it was before
    the carriage returns were put in. *)
Lemma universal_newlines_no_cr s : no_cr s = true -> universal_newlines s = s.
Proof.
  induction s as [|c rest IH]; [reflexivity|].
  cbn [no_cr]. intros [Hc Hrest]%andb_true_iff.
  apply negb_true_iff in Hc.
  change (universal_newlines (String c rest)) with
    (if Ascii.eqb c CR then
       match rest with
       | String c' rest' =>
           if Ascii.eqb c' LF then String LF (universal_newlines rest')
           else String LF (universal_newlines rest)
       | EmptyString => String LF EmptyString
       end
     else String c (universal_newlines rest)).
  rewrite Hc. by rewrite IH.
Qed.

Lemma universal_newlines_to_crlf s :
  no_cr s = true -> universal_newlines (to_crlf s) = s.
Proof.
  induction s as [|c rest IH]; [reflexivity|].
  cbn [no_cr]. intros [Hc Hrest]%andb_true_iff.
  apply negb_true_iff in Hc. cbn [to_crlf].
  destruct (Ascii.eqb c LF) eqn:Hlf.
  - apply Ascii.eqb_eq in Hlf. subst c.
    change (universal_newlines (String CR (String LF (to_crlf rest)))) with
      (String LF (universal_newlines (to_crlf rest))).
    by rewrite IH.
  - change (universal_newlines (String c (to_crlf rest))) with
      (if Ascii.eqb c CR then
         match to_crlf rest with
         | String c' rest' =>
             if Ascii.eqb c' LF then String LF (universal_newlines rest')
             else String LF (universal_newlines (to_crlf rest))
         | EmptyString => String LF EmptyString
         end
       else String c (universal_newlines (to_crlf rest))).
    rewrite Hc. by rewrite IH.
Qed.

Lemma decode_text_to_crlf b :
  no_cr b = true -> decode_text (to_crlf b) = decode_text b.
Proof.
  intros Hb. unfold decode_text, utf8_valid.
  rewrite utf8_scan_to_crlf by exact I.
  by rewrite universal_newlines_to_crlf, universal_newlines_no_cr.
Qed.

(** X9. The line endings of the report do not matter.  Take a report
    without carriage returns and the same report saved with Windows line
    endings, in the same directory: a run of either script ends the same way
    on both, prints the same lines and leaves the same content at every path
    other than the report's own. *)
Theorem line_endings_of_the_report_do_not_matter
    (markdown : text -> list string -> text)
    (wkhtmltopdf : text -> pdf_options -> render_result)
    (fs : gmap string string) (b : bytes) (p : string) :
  no_cr b = true ->
  p <> report_md ->
  let unix := initial_world (<[report_md := b]> fs) in
  let dos := initial_world (<[report_md := to_crlf b]> fs) in
  (fst (generate_pdf_report_main markdown wkhtmltopdf dos) =
     fst (generate_pdf_report_main markdown wkhtmltopdf unix) /\
   stdout (snd (generate_pdf_report_main markdown wkhtmltopdf dos)) =
     stdout (snd (generate_pdf_report_main markdown wkhtmltopdf unix)) /\
   files (snd (generate_pdf_report_main markdown wkhtmltopdf dos)) !! p =
     files (snd (generate_pdf_report_main markdown wkhtmltopdf unix)) !! p) /\
  (fst (simple_pdf_generator_main markdown dos) =
     fst (simple_pdf_generator_main markdown unix) /\
   stdout (snd (simple_pdf_generator_main markdown dos)) =
     stdout (snd (simple_pdf_generator_main markdown unix)) /\
   files (snd (simple_pdf_generator_main markdown dos)) !! p =
     files (snd (simple_pdf_generator_main markdown unix)) !! p).
Proof.
  intros Hb Hp unix dos. subst unix dos.
  rewrite !generate_pdf_report_main_run, !simple_pdf_generator_main_run.
  cbn [initial_world files stdout open_files io_log].
  assert (Hsrc : source_of (<[report_md := to_crlf b]> fs) =
                 source_of (<[report_md := b]> fs)).
  { unfold source_of. rewrite !lookup_insert_eq. by rewrite decode_text_to_crlf. }
  rewrite Hsrc.
  destruct (source_of (<[report_md := b]> fs)) as [| |t];
    cbn [fst snd files stdout].
  - repeat split; by rewrite !lookup_insert_ne.
  - repeat split; by rewrite !lookup_insert_ne.
  - split.
    + destruct (wkhtmltopdf _ _) as [pdf|msg [partial|]];
        cbn [fst snd files stdout after_failed_render];
        repeat split; rewrite !lookup_insert; repeat case_decide; congruence.
    + repeat split. rewrite !lookup_insert. repeat case_decide; congruence.
Qed.

Lemma line_endings_of_the_report_do_not_matter_witness :
  let b := "# Title" +:+ nl +:+ nl +:+ "Text." +:+ nl in
  no_cr b = true /\
  fs_report_crlf = <[report_md := to_crlf b]> ∅ /\
  files (snd (simple_pdf_generator_main paragraph_markdown
                (initial_world fs_report_crlf))) !! report_html =
    files (snd (simple_pdf_generator_main paragraph_markdown
                  (initial_world fs_report))) !! report_html.
Proof.
  cbv zeta.
  destruct (line_endings_of_the_report_do_not_matter paragraph_markdown
              missing_renderer ∅ ("# Title" +:+ nl +:+ nl +:+ "Text." +:+ nl)
              report_html) as (_ & _ & _ & H).
  - reflexivity.
  - discriminate.
  - split; [reflexivity|]. split; [reflexivity|]. exact H.
Defined.
